(** * secboot: the snap model PCR profile ([snapmodel_policy.go])

    A shallow embedding of [AddSnapModelProfile] and of the values it
    works on, followed by the properties of the function.

    Go values are modelled as follows.
    - [string] and [[]byte]: a Go string is a sequence of bytes, modelled by
      [string]; a byte slice is a [list byte]; the conversion [[]byte(s)] is
      [list_byte_of_string].
    - [int]: [Z] (only the sign of [PCRIndex] is inspected).
    - [*asserts.Model]: [option asserts.Model], [None] being the nil pointer.
    - [*PCRProtectionProfile]: an index into a store of profile objects.
    - [error]: the inductive type [error]; the nil error is [None].
    - [tpm2.HashAlgorithmId]: any identifier a caller can pass; [NewHash]
      fails, instead of returning, for one that has no hash function.
    - the package variables written by the helpers of [export_test.go]: a
      record [globals], passed explicitly. *)

From Stdlib Require Import ZArith NArith Strings.Byte Strings.Ascii Strings.String.
From stdpp Require Import base tactics option list.

Local Open Scope string_scope.
Local Open Scope list_scope.

(** ** Errors *)

(** The error values the function can build: [errors.New], the wrapping
    [xerrors.Errorf] with a trailing [%w] verb, and [base64.CorruptInputError]. *)
Inductive error : Type :=
| errorString (s : string)
| wrapError (prefix : string) (err : error)
| CorruptInputError (offset : Z).

Module errors.
(** [errors.New(text)] *)
Definition New (text : string) : error := errorString text.
End errors.

Module xerrors.
(** [xerrors.Errorf(prefix + "%w", err)]: [prefix] is the format up to the
    final verb. *)
Definition Errorf (prefix : string) (err : error) : error := wrapError prefix err.

(** [xerrors.Unwrap] *)
Definition Unwrap (e : error) : option error :=
  match e with
  | wrapError _ err => Some err
  | _ => None
  end.
End xerrors.

(** ** encoding/base64, [RawURLEncoding] *)

Module base64.

(** The URL-safe alphabet of RFC 4648 ([encodeURL]). *)
Definition encodeURL : string :=
  "ABCDEFGHIJKLMNOPQRSTUVWXYZabcdefghijklmnopqrstuvwxyz0123456789-_".

Fixpoint indexByte (alphabet : list byte) (c : byte) (i : N) : option N :=
  match alphabet with
  | [] => None
  | a :: rest => if Byte.eqb a c then Some i else indexByte rest c (N.succ i)
  end.

(** [enc.decodeMap[in]]: the position of [in] in the alphabet; [None]
    stands for the entry [0xff] of the table. *)
Definition decodeMap (c : byte) : option N :=
  indexByte (list_byte_of_string encodeURL) c 0.

Definition isNewline (c : byte) : bool :=
  Byte.eqb c "010"%byte || Byte.eqb c "013"%byte.

(** [byte(n)]: conversion of an unsigned integer to a byte keeps the low
    eight bits. *)
Definition byteOf (n : N) : byte :=
  match Byte.of_N (N.land n 255) with
  | Some b => b
  | None => x00
  end.

(** The tail of [decodeQuantum]: the sextets read so far (two, three or
    four of them) are packed into a 24-bit value, of which [dlen - 1] bytes
    are kept.  The encoding is not strict, so the unused low bits are not
    inspected. *)
Definition quantumBytes (sextets : list N) : list byte :=
  let d i := nth i sextets 0%N in
  let val := N.lor (N.lor (N.lor (N.shiftl (d 0) 18) (N.shiftl (d 1) 12))
                          (N.shiftl (d 2) 6)) (d 3) in
  take (length sextets - 1)
       [byteOf (N.shiftr val 16); byteOf (N.shiftr val 8); byteOf val].

(** [Decode]: the input is consumed left to right, [si] being the index of
    the next byte, [dbuf] the sextets of the quantum being read and [dst]
    the bytes produced by the complete quanta.  Line feeds and carriage
    returns are skipped; any other byte outside the alphabet is reported at
    its own index; an input that ends one sextet into a quantum is
    reported at [si - 1]. RawURLEncoding has no padding character. *)
Fixpoint decodeLoop (src : list byte) (si : Z) (dbuf : list N) (dst : list byte)
  : list byte * option error :=
  match src with
  | [] =>
      match dbuf with
      | [] => (dst, None)
      | [_] => (dst, Some (CorruptInputError (si - 1)))
      | _ => (dst ++ quantumBytes dbuf, None)
      end
  | c :: rest =>
      match decodeMap c with
      | Some out =>
          let dbuf' := dbuf ++ [out] in
          if (length dbuf' =? 4)%nat
          then decodeLoop rest (si + 1) [] (dst ++ quantumBytes dbuf')
          else decodeLoop rest (si + 1) dbuf' dst
      | None =>
          if isNewline c then decodeLoop rest (si + 1) dbuf dst
          else (dst, Some (CorruptInputError si))
      end
  end.

(** [RawURLEncoding.DecodeString(s)] *)
Definition DecodeString (s : string) : list byte * option error :=
  decodeLoop (list_byte_of_string s) 0 [] [].

End base64.

(** ** github.com/chrisccoulson/go-tpm2: hash algorithms *)

Module tpm2.

(** The hash algorithms of the platform.  [HashAlgorithmId] ranges over all
    the identifiers a caller can pass; [Supported] tells those for which a
    hash function is available.  A supported identifier has a digest length
    [Size] and a digest function [digestOf], which maps the bytes written
    to a hash object to a digest of that length. *)
Class Hashes : Type := {
  HashAlgorithmId : Type;
  Supported : HashAlgorithmId -> bool;
  Size : HashAlgorithmId -> nat;
  digestOf : HashAlgorithmId -> list byte -> list byte;
  digestOf_length :
    forall a data, Supported a = true -> length (digestOf a data) = Size a
}.

(** A [hash.Hash] object: the algorithm it was made for and the bytes
    written to it so far. *)
Record Hash `{Hashes} : Type := mkHash {
  hashAlg : HashAlgorithmId;
  written : list byte
}.

Section Hash.
Context `{Hashes}.

(** [a.NewHash()]: a hash object with nothing written to it; [None] when
    there is no hash function for [a], in which case the call does not
    return. *)
Definition NewHash (a : HashAlgorithmId) : option Hash :=
  if Supported a then Some {| hashAlg := a; written := [] |} else None.

(** [h.Write(p)] *)
Definition Write (h : Hash) (p : list byte) : Hash :=
  {| hashAlg := hashAlg h; written := written h ++ p |}.

(** [h.Sum(b)]: appends the digest of the bytes written so far to [b]. *)
Definition Sum (h : Hash) (b : list byte) : list byte :=
  b ++ digestOf (hashAlg h) (written h).
End Hash.

End tpm2.

(** ** github.com/snapcore/snapd/asserts: model assertions *)

Module asserts.
(** The headers of a model assertion read by the function; the accessor
    [Model()] is [Model_]. *)
Record Model : Type := mkModel {
  SignKeyID : string;
  BrandID : string;
  Model_ : string;
  Series : string
}.
End asserts.

(** ** PCR protection profiles *)

(** A [*PCRProtectionProfile] is the index of a profile object in the
    store; an index outside the store stands for the nil pointer. *)
Abbreviation loc := nat (only parsing).

Section Profiles.
Context `{tpm2.Hashes}.

(** Modelled from the spec: the node type of a PCR profile, which the
    repository declares in a file outside this development.  A node is an
    [Extend] step for a (bank, index) pair chained to one child, a
    [Branch] over an ordered sequence of children, or the terminal [End]
    (here [End_]). *)
#[warnings="-register-all"]
Inductive ProfileNode : Type :=
| Extend (bank : tpm2.HashAlgorithmId) (index : Z) (value : list byte)
         (child : ProfileNode)
| Branch (children : list ProfileNode)
| End_.

(** Modelled from the spec: the replacement of every current leaf of a
    profile tree, the common part of [extendPCR] and [addBranches]. *)
Fixpoint replaceLeaves (leaf : ProfileNode) (t : ProfileNode) : ProfileNode :=
  match t with
  | Extend bank index value child =>
      Extend bank index value (replaceLeaves leaf child)
  | Branch children => Branch (List.map (replaceLeaves leaf) children)
  | End_ => leaf
  end.

(** The calls made on the profile interface, in the order they happen.  The
    record of calls is kept next to the store so that the properties can
    speak of the calls the function makes, whatever their effect. *)
Inductive call : Type :=
| CallNew (p : loc)
| CallExtendPCR (p : loc) (alg : tpm2.HashAlgorithmId) (pcr : Z)
                (digest : list byte)
| CallAddProfileOR (p : loc) (profiles : list loc).

(** The state the function runs in: the profile objects, each holding the
    root of its tree, and the record of the calls made so far. *)
Record state : Type := mkState {
  store : list ProfileNode;
  calls : list call
}.

(** The ways in which a call on the profile interface or on the hash
    library can fail instead of returning. *)
Inductive panic : Type :=
| NilDereference
| InvalidDigestLength
| EmptyBranchSet
| HashUnavailable.

Inductive outcome (A : Type) : Type :=
| Returns (a : A) (s : state)
| Panics (p : panic).
Arguments Returns {A} a s.
Arguments Panics {A} p.

(** Computations over the state that return a value or fail. *)
Definition M (A : Type) : Type := state -> outcome A.

Definition ret {A} (a : A) : M A := fun s => Returns a s.

Definition bind {A B} (m : M A) (k : A -> M B) : M B :=
  fun s =>
    match m s with
    | Returns a s' => k a s'
    | Panics p => Panics p
    end.

Notation "x <- m ;; k" := (bind m (fun x => k))
  (at level 100, m at next level, right associativity).

(** [alg.NewHash()] as a step of a computation: it fails when there is no
    hash function for [alg]. *)
Definition newHash (alg : tpm2.HashAlgorithmId) : M tpm2.Hash :=
  fun s =>
    match tpm2.NewHash alg with
    | Some h => Returns h s
    | None => Panics HashUnavailable
    end.

(** Modelled from the spec: [new()], the empty profile, a single [End];
    the repository's [NewPCRProtectionProfile] is outside this
    development.  The new object is placed at the end of the store. *)
Definition NewPCRProtectionProfile : M loc :=
  fun s =>
    let p := length (store s) in
    Returns p {| store := store s ++ [End_];
                 calls := calls s ++ [CallNew p] |}.

(** Modelled from the spec: [extendPCR(bank, index, digest) -> self], which
    appends an [Extend] node to every current leaf and fails with
    [InvalidDigestLength] unless the digest has the length of the bank's
    digests; the repository's [ExtendPCR] is outside this development. *)
Definition ExtendPCR (p : loc) (alg : tpm2.HashAlgorithmId) (pcr : Z)
    (digest : list byte) : M loc :=
  fun s =>
    match store s !! p with
    | None => Panics NilDereference
    | Some t =>
        if (length digest =? tpm2.Size alg)%nat
        then Returns p
               {| store := <[p := replaceLeaves (Extend alg pcr digest End_) t]> (store s);
                  calls := calls s ++ [CallExtendPCR p alg pcr digest] |}
        else Panics InvalidDigestLength
    end.

(** The roots of the given profiles, in order; [None] if one of them is
    nil. *)
Definition rootsOf (st : list ProfileNode) (profiles : list loc)
  : option (list ProfileNode) :=
  mapM (fun q => st !! q) profiles.

(** Modelled from the spec: [addBranches(subProfiles) -> self], which
    replaces every current leaf with a [Branch] whose children are the
    roots of the sub-profiles, in their order, and fails with
    [EmptyBranchSet] when there is none; the repository's [AddProfileOR]
    is outside this development. *)
Definition AddProfileOR (p : loc) (profiles : list loc) : M loc :=
  fun s =>
    match store s !! p, rootsOf (store s) profiles with
    | Some t, Some roots =>
        match roots with
        | [] => Panics EmptyBranchSet
        | _ => Returns p
                 {| store := <[p := replaceLeaves (Branch roots) t]> (store s);
                    calls := calls s ++ [CallAddProfileOR p profiles] |}
        end
    | _, _ => Panics NilDereference
    end.

(** ** [snapmodel_policy.go] *)

(** [SnapModelProfileParams] *)
Record SnapModelProfileParams : Type := mkParams {
  PCRAlgorithm : tpm2.HashAlgorithmId;
  PCRIndex : Z;
  Models : list (option asserts.Model)
}.

(** The body of the loop of [AddSnapModelProfile] over [params.Models],
    [subProfiles] being the slice built so far.  The result is [inl err]
    when the body returns [err] from the function, and [inr subProfiles]
    when the loop runs to its end. *)
Fixpoint rangeModels (params : SnapModelProfileParams)
    (models : list (option asserts.Model)) (subProfiles : list loc)
  : M (error + list loc) :=
  match models with
  | [] => ret (inr subProfiles)
  | model :: rest =>
      match model with
      | None => ret (inl (errors.New "nil model"))
      | Some model =>
          match base64.DecodeString (asserts.SignKeyID model) with
          | (_, Some err) =>
              ret (inl (xerrors.Errorf "cannot decode signing key ID: " err))
          | (signKeyId, None) =>
              h <- newHash (PCRAlgorithm params) ;;
              let h := tpm2.Write h signKeyId in
              let h := tpm2.Write h (list_byte_of_string (asserts.BrandID model)) in
              let digest := tpm2.Sum h [] in

              h <- newHash (PCRAlgorithm params) ;;
              let h := tpm2.Write h digest in
              let h := tpm2.Write h (list_byte_of_string (asserts.Model_ model)) in
              let digest := tpm2.Sum h [] in

              h <- newHash (PCRAlgorithm params) ;;
              let h := tpm2.Write h digest in
              let h := tpm2.Write h (list_byte_of_string (asserts.Series model)) in

              p <- NewPCRProtectionProfile ;;
              p <- ExtendPCR p (PCRAlgorithm params) (PCRIndex params) (tpm2.Sum h []) ;;
              rangeModels params rest (subProfiles ++ [p])
          end
      end
  end.

(** [AddSnapModelProfile(profile, params)], for a [params] that is not nil;
    the result is the error returned, [None] for nil. *)
Definition AddSnapModelProfile (profile : loc) (params : SnapModelProfileParams)
  : M (option error) :=
  if (PCRIndex params <? 0)%Z then
    ret (Some (errors.New "invalid PCR index"))
  else if (length (Models params) =? 0)%nat then
    ret (Some (errors.New "no models provided"))
  else
    r <- rangeModels params (Models params) [] ;;
    match r with
    | inl err => ret (Some err)
    | inr subProfiles =>
        _ <- AddProfileOR profile subProfiles ;;
        ret None
    end.

End Profiles.

Arguments Returns {_ A} a s.
Arguments Panics {_ A} p.

(** ** The measurement of a model, as documented *)

Section Measurement.
Context `{tpm2.Hashes}.

(** The measurement of a model as the documentation of
    [AddSnapModelProfile] words it, [H] being the digest function of the
    algorithm: [digest1 = H(sign-key-sha3-384 || brand-id)],
    [digest2 = H(digest1 || model)], [digest3 = H(digest2 || series)], the
    sign key in decoded form and the strings without terminators. *)
Definition measurement (alg : tpm2.HashAlgorithmId) (signKeyId : list byte)
    (model : asserts.Model) : list byte :=
  let H := tpm2.digestOf alg in
  let digest1 := H (signKeyId ++ list_byte_of_string (asserts.BrandID model)) in
  let digest2 := H (digest1 ++ list_byte_of_string (asserts.Model_ model)) in
  H (digest2 ++ list_byte_of_string (asserts.Series model)).

(** What one turn of the loop makes of an entry of [params.Models]: the
    error it returns with, or the digest it extends a sub-profile with. *)
Definition checkModel (alg : tpm2.HashAlgorithmId) (model : option asserts.Model)
  : error + list byte :=
  match model with
  | None => inl (errors.New "nil model")
  | Some m =>
      match base64.DecodeString (asserts.SignKeyID m) with
      | (_, Some err) => inl (xerrors.Errorf "cannot decode signing key ID: " err)
      | (signKeyId, None) => inr (measurement alg signKeyId m)
      end
  end.

(** The digests of the entries up to the first one that is refused, and the
    error of that one if there is one. *)
Fixpoint scanModels (alg : tpm2.HashAlgorithmId) (models : list (option asserts.Model))
  : list (list byte) * option error :=
  match models with
  | [] => ([], None)
  | model :: rest =>
      match checkModel alg model with
      | inl err => ([], Some err)
      | inr digest =>
          let '(digests, r) := scanModels alg rest in (digest :: digests, r)
      end
  end.

(** Whether the hash objects for [digests] can be made: the loop asks for
    one only once an entry has passed its checks, so no digest needs no
    hash function. *)
Definition hashReady (alg : tpm2.HashAlgorithmId) (digests : list (list byte)) : bool :=
  match digests with
  | [] => true
  | _ :: _ => tpm2.Supported alg
  end.

(** The tree of a new profile extended once. *)
Definition subProfileTree (alg : tpm2.HashAlgorithmId) (pcr : Z) (digest : list byte)
  : ProfileNode :=
  Extend alg pcr digest End_.

(** The calls that build one sub-profile per digest, the first of them at
    [p] and the others at the following indices. *)
Fixpoint buildCalls (alg : tpm2.HashAlgorithmId) (pcr : Z) (p : loc)
    (digests : list (list byte)) : list call :=
  match digests with
  | [] => []
  | digest :: rest =>
      CallNew p :: CallExtendPCR p alg pcr digest :: buildCalls alg pcr (S p) rest
  end.

(** The state after the sub-profiles of [digests] have been built from [s]. *)
Definition built (params : SnapModelProfileParams) (digests : list (list byte))
    (s : state) : state :=
  {| store := store s ++
              List.map (subProfileTree (PCRAlgorithm params) (PCRIndex params)) digests;
     calls := calls s ++
              buildCalls (PCRAlgorithm params) (PCRIndex params) (length (store s)) digests |}.

(** The state after the sub-profiles of [digests] have been built from [s]
    and added as the branches of [profile], whose tree was [t]. *)
Definition branched (profile : loc) (params : SnapModelProfileParams)
    (digests : list (list byte)) (t : ProfileNode) (s : state) : state :=
  let trees := List.map (subProfileTree (PCRAlgorithm params) (PCRIndex params)) digests in
  let subProfiles := seq (length (store s)) (length digests) in
  {| store := <[profile := replaceLeaves (Branch trees) t]> (store s) ++ trees;
     calls := calls s ++
              buildCalls (PCRAlgorithm params) (PCRIndex params) (length (store s)) digests ++
              [CallAddProfileOR profile subProfiles] |}.

(** An entry of [params.Models] that the loop accepts, with its digest. *)
Definition accepted (alg : tpm2.HashAlgorithmId) (model : option asserts.Model)
    (digest : list byte) : Prop :=
  exists m signKeyId,
    model = Some m /\
    base64.DecodeString (asserts.SignKeyID m) = (signKeyId, None) /\
    digest = measurement alg signKeyId m.

(** The profile a call is made on. *)
Definition receiver (c : call) : loc :=
  match c with
  | CallNew p => p
  | CallExtendPCR p _ _ _ => p
  | CallAddProfileOR p _ => p
  end.

Definition isAddProfileOR (c : call) : bool :=
  match c with
  | CallAddProfileOR _ _ => true
  | _ => false
  end.

(** The calls of [cs] made on [p]. *)
Definition callsOn (p : loc) (cs : list call) : list call :=
  List.filter (fun c => Nat.eqb (receiver c) p) cs.

(** The digests of the [ExtendPCR] calls of [cs], in order. *)
Fixpoint extendedDigests (cs : list call) : list (list byte) :=
  match cs with
  | [] => []
  | CallExtendPCR _ _ _ digest :: rest => digest :: extendedDigests rest
  | _ :: rest => extendedDigests rest
  end.

End Measurement.

(** ** Sample data *)

Module Sample.

(** Three identifiers: two with the digest lengths of SHA-1 and SHA-256,
    and one, [SM3_256], for which there is no hash function. *)
Inductive alg : Type := SHA1 | SHA256 | SM3_256.

Definition supported (a : alg) : bool :=
  match a with
  | SHA1 | SHA256 => true
  | SM3_256 => false
  end.

Definition size (a : alg) : nat :=
  match a with
  | SHA1 => 20
  | SHA256 | SM3_256 => 32
  end.

(** A checksum standing in for the digest functions: it has the right
    length and depends on every byte, which is all the examples need. *)
Definition checksum (a : alg) (data : list byte) : list byte :=
  let acc := fold_left (fun x b => ((x * 33 + Byte.to_N b) mod 4294967296)%N) data 5381%N in
  List.map (fun i => base64.byteOf
                       (N.shiftr ((acc * (2 * N.of_nat i + 1) * 2654435761) mod 4294967296) 24))
           (seq 0 (size a)).

Definition checksum_length (a : alg) (data : list byte) (_ : supported a = true)
  : length (checksum a data) = size a :=
  eq_trans (length_map _ _) (length_seq _ _).

#[global] Instance hashes : tpm2.Hashes :=
  {| tpm2.HashAlgorithmId := alg;
     tpm2.Supported := supported;
     tpm2.Size := size;
     tpm2.digestOf := checksum;
     tpm2.digestOf_length := checksum_length |}.

(** A model with a well-formed sign key ID, one whose sign key ID holds a
    byte outside the alphabet, and a second well-formed one. *)
Definition model1 : asserts.Model :=
  {| asserts.SignKeyID := "Jv8_JiHiIzJVcO9M55pPdqSDWUvuhfDIBJUS-3VW7F_idjix7Ffn5qMxB21ZQuij";
     asserts.BrandID := "canonical";
     asserts.Model_ := "ubuntu-core-20-amd64";
     asserts.Series := "16" |}.

Definition model2 : asserts.Model :=
  {| asserts.SignKeyID := "Jv8_JiHiIzJVcO9M55pPdqSDWUvuhfDIBJUS-3VW7F_idjix7Ffn5qMxB21ZQuij";
     asserts.BrandID := "other-brand";
     asserts.Model_ := "other-model";
     asserts.Series := "16" |}.

Definition badModel : asserts.Model :=
  {| asserts.SignKeyID := "Jv8_JiHiIzJVcO9M55pPdqSDWUvuhfDIBJUS+3VW7F/idjix7Ffn5qMxB21ZQuij";
     asserts.BrandID := "canonical";
     asserts.Model_ := "ubuntu-core-20-amd64";
     asserts.Series := "16" |}.

(** A store with one empty profile, and the reference to it. *)
Definition s0 : state := {| store := [End_]; calls := [] |}.
Definition profile0 : loc := 0.

(** A store with two profiles, the second of which has one step already and
    one earlier call on record, and the reference to that profile. *)
Definition s1 : state :=
  {| store := [End_; Extend SHA1 7 (checksum SHA1 []) End_];
     calls := [CallNew 1] |}.
Definition profile1 : loc := 1.

Definition paramsTwoModels : SnapModelProfileParams :=
  {| PCRAlgorithm := SHA256; PCRIndex := 12; Models := [Some model1; Some model2] |}.

Definition paramsThreeModels : SnapModelProfileParams :=
  {| PCRAlgorithm := SHA256; PCRIndex := 12;
     Models := [Some model1; Some model2; Some model1] |}.

Definition paramsEmpty : SnapModelProfileParams :=
  {| PCRAlgorithm := SHA256; PCRIndex := 12; Models := [] |}.

Definition paramsEmptyNegative : SnapModelProfileParams :=
  {| PCRAlgorithm := SHA256; PCRIndex := -1; Models := [] |}.

Definition paramsModelThenNil : SnapModelProfileParams :=
  {| PCRAlgorithm := SHA256; PCRIndex := 12; Models := [Some model1; None; Some model2] |}.

Definition paramsModelThenBad : SnapModelProfileParams :=
  {| PCRAlgorithm := SHA256; PCRIndex := 12;
     Models := [Some model1; Some badModel; Some model2] |}.

Definition paramsBadThenNil : SnapModelProfileParams :=
  {| PCRAlgorithm := SHA256; PCRIndex := 0; Models := [Some badModel; None] |}.

Definition paramsNilThenBad : SnapModelProfileParams :=
  {| PCRAlgorithm := SHA256; PCRIndex := 0; Models := [None; Some badModel] |}.

(** The same lists for an algorithm without a hash function. *)
Definition paramsNoHash : SnapModelProfileParams :=
  {| PCRAlgorithm := SM3_256; PCRIndex := 12; Models := [Some model1; Some model2] |}.

Definition paramsNoHashModelThenNil : SnapModelProfileParams :=
  {| PCRAlgorithm := SM3_256; PCRIndex := 12; Models := [Some model1; None; Some model2] |}.

Definition paramsNoHashModelThenBad : SnapModelProfileParams :=
  {| PCRAlgorithm := SM3_256; PCRIndex := 12;
     Models := [Some model1; Some badModel; Some model2] |}.

(** The state a run ends in. *)
Definition stateAfter {A : Type} (o : outcome A) : state :=
  match o with
  | Returns _ s => s
  | Panics _ => s0
  end.

Definition afterTwoModels : state :=
  stateAfter (AddSnapModelProfile profile0 paramsTwoModels s0).

Definition afterThreeModels : state :=
  stateAfter (AddSnapModelProfile profile1 paramsThreeModels s1).

Definition afterModelThenBad : state :=
  stateAfter (AddSnapModelProfile profile0 paramsModelThenBad s0).

(** The decoded sign key ID and the measurement of [model1]. *)
Definition signKeyId1 : list byte := fst (base64.DecodeString (asserts.SignKeyID model1)).
Definition digest1 : list byte := measurement SHA256 signKeyId1 model1.

End Sample.

(** ** Words for the properties of the decoder *)

(** The number of bytes of [src] that belong to the alphabet. *)
Definition countSextets (src : list byte) : nat :=
  length (List.filter (fun c => bool_decide (is_Some (base64.decodeMap c))) src).

(** [src] without its line feeds and carriage returns. *)
Definition stripNewlines (src : list byte) : list byte :=
  List.filter (fun c => negb (base64.isNewline c)) src.

(** ** [export_test.go] *)

Section ExportTest.
Context `{tpm2.Hashes}.

(** The types of the values that the package keeps behind pointers or as
    functions and that this file only passes around: [*tpm2.Public],
    [func() (io.ReadWriteCloser, error)], [*rsa.PrivateKey], and the
    pointers to the two certificate structures. *)
Variables (PublicRef TctiFn PrivateKeyRef AuthenticodeRef UefiGuidRef : Type).

(** The package variables that the helpers of this file read and write. *)
Record globals : Type := mkGlobals {
  efivarsPath : string;
  eventLogPath : string;
  ekTemplate : PublicRef;
  rootCAHashes : list (list byte);
  openDefaultTcti : TctiFn
}.

(** A [func()] over the package variables, as returned by the [Mock]
    helpers. *)
Definition restoreFn : Type := globals -> globals.

(** [AppendRootCAHash(h)] *)
Definition AppendRootCAHash (h : list byte) (g : globals) : globals :=
  {| efivarsPath := efivarsPath g;
     eventLogPath := eventLogPath g;
     ekTemplate := ekTemplate g;
     rootCAHashes := rootCAHashes g ++ [h];
     openDefaultTcti := openDefaultTcti g |}.

(** The assignment [efivarsPath = path]. *)
Definition setEfivarsPath (path : string) (g : globals) : globals :=
  {| efivarsPath := path;
     eventLogPath := eventLogPath g;
     ekTemplate := ekTemplate g;
     rootCAHashes := rootCAHashes g;
     openDefaultTcti := openDefaultTcti g |}.

(** [MockEfivarsPath(path)]: the function it returns and the variables
    after the call. *)
Definition MockEfivarsPath (path : string) (g : globals) : restoreFn * globals :=
  let origPath := efivarsPath g in
  let g := setEfivarsPath path g in
  (fun g' => setEfivarsPath origPath g', g).

(** The assignment [ekTemplate = mock]. *)
Definition setEkTemplate (mock : PublicRef) (g : globals) : globals :=
  {| efivarsPath := efivarsPath g;
     eventLogPath := eventLogPath g;
     ekTemplate := mock;
     rootCAHashes := rootCAHashes g;
     openDefaultTcti := openDefaultTcti g |}.

(** [MockEKTemplate(mock)] *)
Definition MockEKTemplate (mock : PublicRef) (g : globals) : restoreFn * globals :=
  let orig := ekTemplate g in
  let g := setEkTemplate mock g in
  (fun g' => setEkTemplate orig g', g).

(** The assignment [eventLogPath = path]. *)
Definition setEventLogPath (path : string) (g : globals) : globals :=
  {| efivarsPath := efivarsPath g;
     eventLogPath := path;
     ekTemplate := ekTemplate g;
     rootCAHashes := rootCAHashes g;
     openDefaultTcti := openDefaultTcti g |}.

(** [MockEventLogPath(path)] *)
Definition MockEventLogPath (path : string) (g : globals) : restoreFn * globals :=
  let origPath := eventLogPath g in
  let g := setEventLogPath path g in
  (fun g' => setEventLogPath origPath g', g).

(** [SetOpenDefaultTctiFn(fn)] *)
Definition SetOpenDefaultTctiFn (fn : TctiFn) (g : globals) : globals :=
  {| efivarsPath := efivarsPath g;
     eventLogPath := eventLogPath g;
     ekTemplate := ekTemplate g;
     rootCAHashes := rootCAHashes g;
     openDefaultTcti := fn |}.

(** [MockPolicyPCRParam] *)
Record MockPolicyPCRParam : Type := mkMockPolicyPCRParam {
  PCR : Z;
  Alg : tpm2.HashAlgorithmId;
  Digests : list (list byte)
}.

(** The fields of [policyPCRParam] and of [dynamicPolicyComputeParams] that
    the composite literals of [NewDynamicPolicyComputeParams] set. *)
Record policyPCRParam : Type := mkPolicyPCRParam {
  pcr : Z;
  alg : tpm2.HashAlgorithmId;
  digests : list (list byte)
}.

Record dynamicPolicyComputeParams : Type := mkDynamicPolicyComputeParams {
  key : PrivateKeyRef;
  signAlg : tpm2.HashAlgorithmId;
  pcrParams : list policyPCRParam;
  policyCountIndexName : list byte;
  policyCount : Z
}.

(** The loop of [NewDynamicPolicyComputeParams] over [mockPcrParams],
    [pcrParams] being the slice built so far. *)
Fixpoint rangeMockPcrParams (mockPcrParams : list MockPolicyPCRParam)
    (pcrParams : list policyPCRParam) : list policyPCRParam :=
  match mockPcrParams with
  | [] => pcrParams
  | p :: rest =>
      rangeMockPcrParams rest
        (pcrParams ++ [{| pcr := PCR p; alg := Alg p; digests := Digests p |}])
  end.

(** [NewDynamicPolicyComputeParams(key, signAlg, mockPcrParams,
    policyCountIndexName, policyCount)]; the result is the structure the
    returned pointer refers to. *)
Definition NewDynamicPolicyComputeParams (key : PrivateKeyRef)
    (signAlg : tpm2.HashAlgorithmId) (mockPcrParams : list MockPolicyPCRParam)
    (policyCountIndexName : list byte) (policyCount : Z)
  : dynamicPolicyComputeParams :=
  let pcrParams := rangeMockPcrParams mockPcrParams [] in
  {| key := key;
     signAlg := signAlg;
     pcrParams := pcrParams;
     policyCountIndexName := policyCountIndexName;
     policyCount := policyCount |}.

(** A value of the interface [WinCertificate]: a pointer, possibly nil, to
    one of the two certificate structures that implement it. *)
Inductive WinCertificate : Type :=
| ofAuthenticode (c : option AuthenticodeRef)
| ofUefiGuid (c : option UefiGuidRef).

(** [cert.ToWinCertificateAuthenticode()]: the receiver itself, seen as a
    [*WinCertificateAuthenticode], for [*winCertificateAuthenticode], and
    nil for [*winCertificateUefiGuid]. *)
Definition ToWinCertificateAuthenticode (cert : WinCertificate)
  : option AuthenticodeRef :=
  match cert with
  | ofAuthenticode c => c
  | ofUefiGuid _ => None
  end.

(** [cert.ToWinCertificateUefiGuid()] *)
Definition ToWinCertificateUefiGuid (cert : WinCertificate)
  : option UefiGuidRef :=
  match cert with
  | ofAuthenticode _ => None
  | ofUefiGuid c => c
  end.

(** The pointer held by the interface value is nil. *)
Definition holdsNil (cert : WinCertificate) : bool :=
  match cert with
  | ofAuthenticode None | ofUefiGuid None => true
  | _ => false
  end.

End ExportTest.

Arguments mkGlobals {PublicRef TctiFn}.
Arguments efivarsPath {PublicRef TctiFn}.
Arguments eventLogPath {PublicRef TctiFn}.
Arguments ekTemplate {PublicRef TctiFn}.
Arguments rootCAHashes {PublicRef TctiFn}.
Arguments openDefaultTcti {PublicRef TctiFn}.
Arguments AppendRootCAHash {PublicRef TctiFn}.
Arguments setEfivarsPath {PublicRef TctiFn}.
Arguments MockEfivarsPath {PublicRef TctiFn}.
Arguments setEkTemplate {PublicRef TctiFn}.
Arguments MockEKTemplate {PublicRef TctiFn}.
Arguments setEventLogPath {PublicRef TctiFn}.
Arguments MockEventLogPath {PublicRef TctiFn}.
Arguments SetOpenDefaultTctiFn {PublicRef TctiFn}.
Arguments NewDynamicPolicyComputeParams {_ PrivateKeyRef}.
Arguments key {_ PrivateKeyRef}.
Arguments signAlg {_ PrivateKeyRef}.
Arguments pcrParams {_ PrivateKeyRef}.
Arguments policyCountIndexName {_ PrivateKeyRef}.
Arguments policyCount {_ PrivateKeyRef}.
Arguments ofAuthenticode {AuthenticodeRef UefiGuidRef}.
Arguments ofUefiGuid {AuthenticodeRef UefiGuidRef}.
Arguments ToWinCertificateAuthenticode {AuthenticodeRef UefiGuidRef}.
Arguments ToWinCertificateUefiGuid {AuthenticodeRef UefiGuidRef}.
Arguments holdsNil {AuthenticodeRef UefiGuidRef}.

(** ** More sample data *)

Module SampleExtra.

(** Two different models whose decoded sign key ("ABC", "AB") followed by
    the brand ID ("D", "CD") give the same bytes. *)
Definition modelABC_D : asserts.Model :=
  {| asserts.SignKeyID := "QUJD";
     asserts.BrandID := "D";
     asserts.Model_ := "pc";
     asserts.Series := "16" |}.

Definition modelAB_CD : asserts.Model :=
  {| asserts.SignKeyID := "QUI";
     asserts.BrandID := "CD";
     asserts.Model_ := "pc";
     asserts.Series := "16" |}.

(** [Sample.model1] with a carriage return and a line feed at the head of
    its sign key ID. *)
Definition model1Broken : asserts.Model :=
  {| asserts.SignKeyID := String "013" (String "010" (asserts.SignKeyID Sample.model1));
     asserts.BrandID := asserts.BrandID Sample.model1;
     asserts.Model_ := asserts.Model_ Sample.model1;
     asserts.Series := asserts.Series Sample.model1 |}.

Definition paramsBoundary : SnapModelProfileParams :=
  {| PCRAlgorithm := Sample.SHA256; PCRIndex := 12;
     Models := [Some modelABC_D; Some modelAB_CD] |}.

Definition paramsBroken : SnapModelProfileParams :=
  {| PCRAlgorithm := Sample.SHA256; PCRIndex := 12;
     Models := [Some Sample.model1; Some model1Broken] |}.

Definition afterBoundary : state :=
  Sample.stateAfter (AddSnapModelProfile Sample.profile0 paramsBoundary Sample.s0).

Definition afterBroken : state :=
  Sample.stateAfter (AddSnapModelProfile Sample.profile0 paramsBroken Sample.s0).

(** The state after a second call, made on the profile of the first. *)
Definition afterTwoCalls : state :=
  Sample.stateAfter
    (AddSnapModelProfile Sample.profile0 Sample.paramsThreeModels Sample.afterTwoModels).

End SampleExtra.

(** * The decoder on examples *)

Example decode_Zm9v : base64.DecodeString "Zm9v" = (list_byte_of_string "foo", None).
Proof. reflexivity. Qed.

Example decode_Zm8 : base64.DecodeString "Zm8" = (list_byte_of_string "fo", None).
Proof. reflexivity. Qed.

Example decode_Zg : base64.DecodeString "Zg" = (list_byte_of_string "f", None).
Proof. reflexivity. Qed.

Example decode_url_chars : base64.DecodeString "-_8" = ([xfb; xff], None).
Proof. reflexivity. Qed.

Example decode_loose_bits : base64.DecodeString "Zh" = (list_byte_of_string "f", None).
Proof. reflexivity. Qed.

Example decode_skips_newlines :
  base64.DecodeString (String "Z" (String "m" (String "010" (String "9" (String "v" (String "013" EmptyString))))))
  = (list_byte_of_string "foo", None).
Proof. reflexivity. Qed.

Example decode_single : base64.DecodeString "Z" = ([], Some (CorruptInputError 0)).
Proof. reflexivity. Qed.

Example decode_padding_rejected :
  base64.DecodeString "Zg==" = ([], Some (CorruptInputError 2)).
Proof. reflexivity. Qed.

Example decode_std_alphabet_rejected :
  base64.DecodeString "Zm9v+m9v" = (list_byte_of_string "foo", Some (CorruptInputError 4)).
Proof. reflexivity. Qed.

(** * Properties of [AddSnapModelProfile] *)

Section Properties.
Context `{tpm2.Hashes}.

Implicit Types (params : SnapModelProfileParams) (s : state) (p profile : loc).
Implicit Types (models : list (option asserts.Model)) (digests : list (list byte)).

(** ** The profile interface on a new object *)

Lemma lookup_new_slot (st : list ProfileNode) (t : ProfileNode) :
  (st ++ [t]) !! length st = Some t.
Proof. now rewrite lookup_app_r, Nat.sub_diag by lia. Qed.

Lemma insert_new_slot (st : list ProfileNode) (t t' : ProfileNode) :
  <[length st := t']> (st ++ [t]) = st ++ [t'].
Proof.
  rewrite insert_app_r_alt by lia. now rewrite Nat.sub_diag.
Qed.

(** A new profile extended once with a digest of the algorithm's length:
    the two calls never fail and leave the tree of one [Extend] step at the
    end of the store. *)
Lemma new_extend_run params s digest (k : loc -> M (error + list loc)) :
  length digest = tpm2.Size (PCRAlgorithm params) ->
  bind NewPCRProtectionProfile
       (fun p => bind (ExtendPCR p (PCRAlgorithm params) (PCRIndex params) digest) k) s
  = k (length (store s)) (built params [digest] s).
Proof.
  intros Hlen. unfold bind, NewPCRProtectionProfile, ExtendPCR. simpl.
  rewrite lookup_new_slot, Hlen, Nat.eqb_refl. simpl.
  rewrite insert_new_slot. unfold built. simpl.
  now rewrite <- app_assoc.
Qed.

Lemma built_nil params s : built params [] s = s.
Proof. destruct s. unfold built. simpl. now rewrite !app_nil_r. Qed.

Lemma built_cons params digest digests s :
  built params digests (built params [digest] s) = built params (digest :: digests) s.
Proof.
  unfold built. simpl. rewrite length_app, Nat.add_1_r. simpl.
  now rewrite <- !app_assoc.
Qed.

(** ** The hash objects *)

Lemma newHash_supported alg {A} (k : tpm2.Hash -> M A) s :
  tpm2.Supported alg = true ->
  bind (newHash alg) k s = k ({| tpm2.hashAlg := alg; tpm2.written := [] |}) s.
Proof. intros Hsup. unfold bind, newHash, tpm2.NewHash. now rewrite Hsup. Qed.

Lemma newHash_unsupported alg {A} (k : tpm2.Hash -> M A) s :
  tpm2.Supported alg = false ->
  bind (newHash alg) k s = Panics HashUnavailable.
Proof. intros Hsup. unfold bind, newHash, tpm2.NewHash. now rewrite Hsup. Qed.

(** The three hash objects of the loop body compute the documented
    measurement. *)
Lemma hash_chain_measurement alg signKeyId (m : asserts.Model) :
  let h := {| tpm2.hashAlg := alg; tpm2.written := [] |} in
  let h := tpm2.Write h signKeyId in
  let h := tpm2.Write h (list_byte_of_string (asserts.BrandID m)) in
  let digest := tpm2.Sum h [] in
  let h := {| tpm2.hashAlg := alg; tpm2.written := [] |} in
  let h := tpm2.Write h digest in
  let h := tpm2.Write h (list_byte_of_string (asserts.Model_ m)) in
  let digest := tpm2.Sum h [] in
  let h := {| tpm2.hashAlg := alg; tpm2.written := [] |} in
  let h := tpm2.Write h digest in
  let h := tpm2.Write h (list_byte_of_string (asserts.Series m)) in
  tpm2.Sum h [] = measurement alg signKeyId m.
Proof. reflexivity. Qed.

Lemma measurement_length alg signKeyId (m : asserts.Model) :
  tpm2.Supported alg = true ->
  length (measurement alg signKeyId m) = tpm2.Size alg.
Proof. apply tpm2.digestOf_length. Qed.

Lemma hashReady_supported alg digests :
  tpm2.Supported alg = true -> hashReady alg digests = true.
Proof. intros Hsup. now destruct digests. Qed.

(** ** The loop *)

(** The loop builds the sub-profiles of the entries up to the first one it
    refuses and returns with the error of that one, or with the references
    to all the sub-profiles when there is none.  It fails in one case only:
    the first entry passes its checks and there is no hash function for
    the algorithm. *)
Lemma rangeModels_run params models : forall (subProfiles : list loc) s,
  rangeModels params models subProfiles s =
  let '(digests, r) := scanModels (PCRAlgorithm params) models in
  if hashReady (PCRAlgorithm params) digests then
    Returns (match r with
             | Some err => inl err
             | None => inr (subProfiles ++ seq (length (store s)) (length digests))
             end)
            (built params digests s)
  else Panics HashUnavailable.
Proof.
  induction models as [|model rest IH]; intros subProfiles s.
  - simpl. unfold ret. now rewrite built_nil, app_nil_r.
  - simpl. destruct model as [m|]; simpl.
    + destruct (base64.DecodeString (asserts.SignKeyID m)) as [signKeyId [err|]] eqn:Hdec.
      * unfold ret. simpl. now rewrite built_nil.
      * destruct (tpm2.Supported (PCRAlgorithm params)) eqn:Hsup.
        -- rewrite !newHash_supported by assumption.
           rewrite new_extend_run
             by (rewrite hash_chain_measurement; now apply measurement_length).
           rewrite IH, hash_chain_measurement.
           destruct (scanModels (PCRAlgorithm params) rest) as [digests r].
           rewrite (hashReady_supported _ _ Hsup).
           change (hashReady (PCRAlgorithm params)
                             (measurement (PCRAlgorithm params) signKeyId m :: digests))
             with (tpm2.Supported (PCRAlgorithm params)).
           rewrite Hsup, built_cons. f_equal.
           destruct r; [reflexivity|]. f_equal.
           unfold built at 1. simpl. rewrite length_app, Nat.add_1_r. simpl.
           now rewrite <- app_assoc.
        -- rewrite newHash_unsupported by assumption.
           destruct (scanModels (PCRAlgorithm params) rest) as [digests r].
           simpl. now rewrite Hsup.
    + unfold ret. simpl. now rewrite built_nil.
Qed.

(** ** The entries of [params.Models] *)

Lemma checkModel_accepted alg (model : option asserts.Model) digest :
  checkModel alg model = inr digest <-> accepted alg model digest.
Proof.
  unfold checkModel, accepted. split.
  - destruct model as [m|]; [|discriminate].
    destruct (base64.DecodeString (asserts.SignKeyID m)) as [signKeyId [err|]] eqn:Hdec;
      [discriminate|].
    intros [= <-]. eauto.
  - intros (m & signKeyId & -> & -> & ->). reflexivity.
Qed.

(** The errors of the loop body: an entry is refused because it is nil or
    because its sign key ID does not decode. *)
Lemma checkModel_refused alg (model : option asserts.Model) err :
  checkModel alg model = inl err <->
  (model = None /\ err = errors.New "nil model") \/
  (exists m partial cause,
      model = Some m /\
      base64.DecodeString (asserts.SignKeyID m) = (partial, Some cause) /\
      err = xerrors.Errorf "cannot decode signing key ID: " cause).
Proof.
  unfold checkModel. split.
  - destruct model as [m|].
    + destruct (base64.DecodeString (asserts.SignKeyID m)) as [partial [cause|]] eqn:Hdec;
        [|discriminate].
      intros [= <-]. right. now exists m, partial, cause.
    + intros [= <-]. now left.
  - intros [[-> ->]|(m & partial & cause & -> & -> & ->)]; reflexivity.
Qed.

Lemma scanModels_all_accepted alg models digests :
  scanModels alg models = (digests, None) <-> Forall2 (accepted alg) models digests.
Proof.
  revert digests. induction models as [|model rest IH]; intros digests; simpl.
  - split.
    + intros [= <-]. constructor.
    + intros Hall. now apply Forall2_nil_inv_l in Hall as ->.
  - destruct (checkModel alg model) as [err|digest] eqn:Hcheck.
    + split; [discriminate|].
      intros Hall. apply Forall2_cons_inv_l in Hall as (d & ds & Hacc & _ & _).
      apply checkModel_accepted in Hacc. congruence.
    + destruct (scanModels alg rest) as [ds r] eqn:Hscan. split.
      * intros [= <- ->]. constructor.
        -- now apply checkModel_accepted.
        -- now apply IH.
      * intros Hall. apply Forall2_cons_inv_l in Hall as (d & ds' & Hacc & Hrest & ->).
        apply checkModel_accepted in Hacc. apply IH in Hrest.
        congruence.
Qed.

Lemma scanModels_first_refused alg models digests err :
  scanModels alg models = (digests, Some err) <->
  exists pre bad post,
    models = pre ++ bad :: post /\
    Forall2 (accepted alg) pre digests /\
    checkModel alg bad = inl err.
Proof.
  revert digests. induction models as [|model rest IH]; intros digests; simpl.
  - split; [discriminate|].
    intros (pre & bad & post & Heq & _). now destruct pre.
  - destruct (checkModel alg model) as [err'|digest] eqn:Hcheck.
    + split.
      * intros [= <- <-]. exists [], model, rest. repeat split; [constructor|assumption].
      * intros (pre & bad & post & Heq & Hall & Hbad).
        destruct Hall as [|m d pre' ds Hacc Hall].
        -- simpl in Heq. injection Heq as -> ->. congruence.
        -- simpl in Heq. injection Heq as -> ->.
           apply checkModel_accepted in Hacc. congruence.
    + destruct (scanModels alg rest) as [ds r] eqn:Hscan. split.
      * intros [= <- ->].
        destruct (proj1 (IH ds) eq_refl) as (pre & bad & post & -> & Hall & Hbad).
        exists (model :: pre), bad, post. repeat split; [|assumption].
        constructor; [now apply checkModel_accepted|assumption].
      * intros (pre & bad & post & Heq & Hall & Hbad).
        destruct Hall as [|m d pre' ds' Hacc Hall].
        -- simpl in Heq. injection Heq as -> ->. congruence.
        -- simpl in Heq. injection Heq as -> ->.
           apply checkModel_accepted in Hacc.
           assert ((ds, r) = (ds', Some err)) as Hrest
             by (apply IH; exists pre', bad, post; auto).
           congruence.
Qed.

(** The digests found are those of an initial segment of the list. *)
Lemma scanModels_prefix alg models digests r :
  scanModels alg models = (digests, r) ->
  Forall2 (accepted alg) (take (length digests) models) digests /\
  (r = None -> length digests = length models).
Proof.
  destruct r as [err|]; intros Hscan.
  - apply scanModels_first_refused in Hscan as (pre & bad & post & -> & Hall & _).
    split; [|discriminate].
    rewrite <- (Forall2_length _ _ _ Hall), take_app_length. assumption.
  - apply scanModels_all_accepted in Hscan.
    rewrite <- (Forall2_length _ _ _ Hscan), firstn_all. auto.
Qed.

(** ** The whole function *)

Lemma rootsOf_new (st trees : list ProfileNode) :
  rootsOf (st ++ trees) (seq (length st) (length trees)) = Some trees.
Proof.
  unfold rootsOf. apply mapM_Some.
  apply Forall2_same_length_lookup_2.
  - now rewrite length_seq.
  - intros i q t Hq Ht. apply lookup_seq in Hq as [-> _].
    now rewrite lookup_app_r, Nat.add_comm, Nat.add_sub by lia.
Qed.

Lemma AddProfileOR_built profile params digests t s :
  store s !! profile = Some t ->
  digests <> [] ->
  AddProfileOR profile (seq (length (store s)) (length digests)) (built params digests s)
  = Returns profile (branched profile params digests t s).
Proof.
  intros Ht Hne. unfold AddProfileOR, built, branched. simpl.
  pose proof (lookup_lt_Some _ _ _ Ht) as Hlt.
  rewrite lookup_app_l, Ht by assumption.
  rewrite <- (length_map (subProfileTree (PCRAlgorithm params) (PCRIndex params)) digests).
  rewrite rootsOf_new.
  destruct digests as [|digest rest]; [congruence|]. simpl.
  rewrite insert_app_l by assumption.
  now rewrite <- app_assoc.
Qed.

(** The function unfolded along the loop. *)
Lemma AddSnapModelProfile_run profile params s :
  AddSnapModelProfile profile params s =
  if (PCRIndex params <? 0)%Z then
    Returns (Some (errors.New "invalid PCR index")) s
  else
    match Models params with
    | [] => Returns (Some (errors.New "no models provided")) s
    | _ =>
        let '(digests, r) := scanModels (PCRAlgorithm params) (Models params) in
        if hashReady (PCRAlgorithm params) digests then
          match r with
          | Some err => Returns (Some err) (built params digests s)
          | None =>
              match AddProfileOR profile (seq (length (store s)) (length digests))
                                 (built params digests s) with
              | Returns _ s' => Returns None s'
              | Panics f => Panics f
              end
          end
        else Panics HashUnavailable
    end.
Proof.
  unfold AddSnapModelProfile.
  destruct (PCRIndex params <? 0)%Z; [reflexivity|].
  destruct (Models params) as [|model rest] eqn:Hmodels; [reflexivity|].
  change (length (model :: rest) =? 0)%nat with false.
  unfold bind at 1. cbv beta iota.
  rewrite rangeModels_run.
  destruct (scanModels (PCRAlgorithm params) (model :: rest)) as [digests [err|]];
    destruct (hashReady (PCRAlgorithm params) digests); reflexivity.
Qed.

(** A call returns nil exactly when the index is not negative, there is at
    least one model and every model is accepted; the state is then the one
    with the sub-profiles of all the models added to the profile. *)
Lemma AddSnapModelProfile_nil_inv profile params s s' :
  profile < length (store s) ->
  AddSnapModelProfile profile params s = Returns None s' ->
  exists digests t,
    (0 <= PCRIndex params)%Z /\
    Models params <> [] /\
    Forall2 (accepted (PCRAlgorithm params)) (Models params) digests /\
    store s !! profile = Some t /\
    s' = branched profile params digests t s.
Proof.
  intros Hlive. rewrite AddSnapModelProfile_run.
  destruct (Z.ltb_spec (PCRIndex params) 0) as [Hneg|Hpos]; [discriminate|].
  destruct (Models params) as [|model rest] eqn:Hmodels; [discriminate|].
  destruct (scanModels (PCRAlgorithm params) (model :: rest)) as [digests r] eqn:Hscan.
  destruct (hashReady (PCRAlgorithm params) digests); [|discriminate].
  destruct r as [err|]; [discriminate|].
  apply scanModels_all_accepted in Hscan.
  destruct (lookup_lt_is_Some_2 _ _ Hlive) as [t Ht].
  rewrite (AddProfileOR_built profile params digests t s Ht).
  - intros [= <-]. exists digests, t. repeat split; auto.
  - intros ->. inversion Hscan.
Qed.

Lemma AddSnapModelProfile_nil_intro profile params s digests t :
  tpm2.Supported (PCRAlgorithm params) = true ->
  (0 <= PCRIndex params)%Z ->
  Models params <> [] ->
  Forall2 (accepted (PCRAlgorithm params)) (Models params) digests ->
  store s !! profile = Some t ->
  AddSnapModelProfile profile params s = Returns None (branched profile params digests t s).
Proof.
  intros Hsup Hpos Hne Hall Ht. rewrite AddSnapModelProfile_run.
  destruct (Z.ltb_spec (PCRIndex params) 0) as [Hneg|_]; [lia|].
  destruct (Models params) as [|model rest] eqn:Hmodels; [congruence|].
  pose proof Hall as Hscan. apply scanModels_all_accepted in Hscan. rewrite Hscan.
  rewrite (hashReady_supported _ _ Hsup).
  rewrite (AddProfileOR_built profile params digests t s Ht); [reflexivity|].
  intros ->. inversion Hall.
Qed.

(** A call that returns an error returns the error of the first check that
    fails, in the state reached at that point. *)
Lemma AddSnapModelProfile_error_inv profile params s err s' :
  AddSnapModelProfile profile params s = Returns (Some err) s' ->
  ((PCRIndex params < 0)%Z /\ err = errors.New "invalid PCR index" /\ s' = s) \/
  ((0 <= PCRIndex params)%Z /\ Models params = [] /\
   err = errors.New "no models provided" /\ s' = s) \/
  ((0 <= PCRIndex params)%Z /\
   exists pre bad post digests,
     Models params = pre ++ bad :: post /\
     Forall2 (accepted (PCRAlgorithm params)) pre digests /\
     checkModel (PCRAlgorithm params) bad = inl err /\
     s' = built params digests s).
Proof.
  rewrite AddSnapModelProfile_run.
  destruct (Z.ltb_spec (PCRIndex params) 0) as [Hneg|Hpos].
  { intros [= <- <-]. auto. }
  destruct (Models params) as [|model rest] eqn:Hmodels.
  { intros [= <- <-]. right. left. auto. }
  destruct (scanModels (PCRAlgorithm params) (model :: rest)) as [digests r] eqn:Hscan.
  destruct (hashReady (PCRAlgorithm params) digests); [|discriminate].
  destruct r as [err'|].
  - intros [= <- <-]. right. right. split; [assumption|].
    apply scanModels_first_refused in Hscan as (pre & bad & post & Heq & Hall & Hbad).
    exists pre, bad, post, digests. auto.
  - destruct (AddProfileOR _ _ _); discriminate.
Qed.

(** The hash function is needed only when an entry before the refused one
    was accepted. *)
Lemma AddSnapModelProfile_error_intro profile params s pre bad post digests err :
  pre = [] \/ tpm2.Supported (PCRAlgorithm params) = true ->
  (0 <= PCRIndex params)%Z ->
  Models params = pre ++ bad :: post ->
  Forall2 (accepted (PCRAlgorithm params)) pre digests ->
  checkModel (PCRAlgorithm params) bad = inl err ->
  AddSnapModelProfile profile params s = Returns (Some err) (built params digests s).
Proof.
  intros Hhash Hpos Hmodels Hall Hbad. rewrite AddSnapModelProfile_run.
  destruct (Z.ltb_spec (PCRIndex params) 0) as [Hneg|_]; [lia|].
  assert (scanModels (PCRAlgorithm params) (Models params) = (digests, Some err)) as ->.
  { apply scanModels_first_refused. exists pre, bad, post. auto. }
  assert (hashReady (PCRAlgorithm params) digests = true) as ->.
  { destruct Hhash as [->|Hsup]; [|now apply hashReady_supported].
    now apply Forall2_nil_inv_l in Hall as ->. }
  rewrite Hmodels. now destruct pre.
Qed.



(** ** The record of calls *)

Lemma buildCalls_fresh alg pcr p digests :
  Forall (fun c => isAddProfileOR c = false /\ p <= receiver c)
         (buildCalls alg pcr p digests).
Proof.
  revert p. induction digests as [|digest rest IH]; intros p; simpl.
  - constructor.
  - repeat constructor; simpl; auto.
    eapply Forall_impl; [apply IH|]. simpl. intros c [Hc Hle]. split; [assumption|lia].
Qed.

Lemma extendedDigests_app (cs1 cs2 : list call) :
  extendedDigests (cs1 ++ cs2) = extendedDigests cs1 ++ extendedDigests cs2.
Proof.
  induction cs1 as [|c cs1 IH]; [reflexivity|].
  destruct c; simpl; now rewrite IH.
Qed.

Lemma extendedDigests_buildCalls alg pcr p digests :
  extendedDigests (buildCalls alg pcr p digests) = digests.
Proof.
  revert p. induction digests as [|digest rest IH]; intros p; simpl; [reflexivity|].
  now rewrite IH.
Qed.

Lemma callsOn_app p (cs1 cs2 : list call) :
  callsOn p (cs1 ++ cs2) = callsOn p cs1 ++ callsOn p cs2.
Proof. unfold callsOn. apply List.filter_app. Qed.

Lemma callsOn_buildCalls_below alg pcr base digests p :
  p < base -> callsOn p (buildCalls alg pcr base digests) = [].
Proof.
  revert base. induction digests as [|digest rest IH]; intros base Hlt; [reflexivity|].
  unfold callsOn in *. simpl.
  destruct (Nat.eqb_spec base p) as [->|_]; [lia|].
  apply IH. lia.
Qed.

(** The calls made on the sub-profile of the [i]-th digest: its creation and
    one [ExtendPCR]. *)
Lemma callsOn_buildCalls alg pcr base digests i digest :
  digests !! i = Some digest ->
  callsOn (base + i) (buildCalls alg pcr base digests)
  = [CallNew (base + i); CallExtendPCR (base + i) alg pcr digest].
Proof.
  revert base i. induction digests as [|d rest IH]; intros base i Hi; [discriminate|].
  destruct i as [|i].
  - injection Hi as ->. rewrite Nat.add_0_r.
    change (buildCalls alg pcr base (digest :: rest))
      with ([CallNew base; CallExtendPCR base alg pcr digest] ++ buildCalls alg pcr (S base) rest).
    rewrite callsOn_app, callsOn_buildCalls_below by lia.
    unfold callsOn. simpl. now rewrite Nat.eqb_refl.
  - simpl in Hi. rewrite Nat.add_succ_r.
    change (buildCalls alg pcr base (d :: rest))
      with ([CallNew base; CallExtendPCR base alg pcr d] ++ buildCalls alg pcr (S base) rest).
    change (S (base + i)) with (S base + i).
    rewrite callsOn_app. rewrite (IH (S base) i Hi).
    unfold callsOn. simpl.
    destruct (Nat.eqb_spec base (S (base + i))) as [Heq|_]; [lia|]. reflexivity.
Qed.

Lemma AddProfileOR_calls p (profiles : list nat) s q s' :
  AddProfileOR p profiles s = Returns q s' ->
  calls s' = calls s ++ [CallAddProfileOR p profiles].
Proof.
  unfold AddProfileOR.
  destruct (store s !! p) as [t|]; [|discriminate].
  destruct (rootsOf (store s) profiles) as [[|root roots]|]; try discriminate.
  now intros [= _ <-].
Qed.

(** The calls of a run that returns: the construction of the sub-profiles
    of the entries that were accepted, followed, when the result is nil, by
    one [AddProfileOR] on the profile with all of them. *)
Lemma AddSnapModelProfile_calls profile params s r s' :
  AddSnapModelProfile profile params s = Returns r s' ->
  exists digests,
    Forall2 (accepted (PCRAlgorithm params)) (take (length digests) (Models params)) digests /\
    (r = None -> length digests = length (Models params)) /\
    calls s' = calls s ++
               buildCalls (PCRAlgorithm params) (PCRIndex params) (length (store s)) digests ++
               match r with
               | None => [CallAddProfileOR profile (seq (length (store s)) (length digests))]
               | Some _ => []
               end.
Proof.
  rewrite AddSnapModelProfile_run.
  destruct (PCRIndex params <? 0)%Z.
  { intros [= <- <-]. exists []. simpl. rewrite app_nil_r.
    split; [constructor|]. split; [discriminate|reflexivity]. }
  destruct (Models params) as [|model rest] eqn:Hmodels.
  { intros [= <- <-]. exists []. simpl. rewrite app_nil_r.
    split; [constructor|]. split; [discriminate|reflexivity]. }
  destruct (scanModels (PCRAlgorithm params) (model :: rest)) as [digests r'] eqn:Hscan.
  apply scanModels_prefix in Hscan as [Hall Hlen].
  destruct (hashReady (PCRAlgorithm params) digests); [|discriminate].
  destruct r' as [err|].
  - intros [= <- <-]. exists digests. simpl. rewrite app_nil_r.
    split; [assumption|]. split; [discriminate|reflexivity].
  - destruct (AddProfileOR _ _ _) as [q s''|f] eqn:Hadd; [|discriminate].
    intros [= <- <-]. apply AddProfileOR_calls in Hadd.
    exists digests. split; [assumption|]. split; [auto|].
    rewrite Hadd. simpl. now rewrite <- app_assoc.
Qed.

Lemma accepted_functional alg (model : option asserts.Model) digest1 digest2 :
  accepted alg model digest1 -> accepted alg model digest2 -> digest1 = digest2.
Proof.
  intros Ha1 Ha2. apply checkModel_accepted in Ha1, Ha2. congruence.
Qed.

(** The digests extended during a run are, position by position, those of
    the models of the list. *)
Lemma extended_digest_accepted profile params s r s' i digest :
  AddSnapModelProfile profile params s = Returns r s' ->
  extendedDigests (drop (length (calls s)) (calls s')) !! i = Some digest ->
  exists model,
    Models params !! i = Some model /\ accepted (PCRAlgorithm params) model digest.
Proof.
  intros Hrun Hi.
  apply AddSnapModelProfile_calls in Hrun as (digests & Hall & _ & Hcalls).
  rewrite Hcalls, drop_app_length, extendedDigests_app, extendedDigests_buildCalls in Hi.
  assert (digests !! i = Some digest) as Hd.
  { destruct r; simpl in Hi; now rewrite app_nil_r in Hi. }
  destruct (Forall2_lookup_r _ _ _ _ _ Hall Hd) as (model & Hm & Hacc).
  exists model. split; [|assumption].
  apply lookup_take_Some in Hm. tauto.
Qed.

(** ** The store after a successful run *)

Lemma branched_lookup_profile profile params digests t s :
  store s !! profile = Some t ->
  store (branched profile params digests t s) !! profile
  = Some (replaceLeaves
            (Branch (List.map (subProfileTree (PCRAlgorithm params) (PCRIndex params)) digests))
            t).
Proof.
  intros Ht. pose proof (lookup_lt_Some _ _ _ Ht) as Hlt.
  unfold branched. simpl.
  rewrite lookup_app_l by (rewrite length_insert; assumption).
  now apply list_lookup_insert_eq.
Qed.

Lemma branched_lookup_subProfile profile params digests t s i digest :
  digests !! i = Some digest ->
  store (branched profile params digests t s) !! (length (store s) + i)
  = Some (subProfileTree (PCRAlgorithm params) (PCRIndex params) digest).
Proof.
  intros Hd. unfold branched. simpl.
  rewrite lookup_app_r by (rewrite length_insert; lia).
  rewrite length_insert, Nat.add_comm, Nat.add_sub.
  rewrite list_lookup_fmap. now rewrite Hd.
Qed.

Lemma built_lookup_old params digests s q t :
  store s !! q = Some t -> store (built params digests s) !! q = Some t.
Proof.
  intros Ht. unfold built. simpl. apply lookup_app_l_Some. assumption.
Qed.

(** A call of [AddProfileOR] found among calls that end with the only one. *)
Lemma last_AddProfileOR (cs before after : list call) (c x : call) :
  Forall (fun c => isAddProfileOR c = false) cs ->
  cs ++ [x] = before ++ c :: after ->
  isAddProfileOR c = true ->
  before = cs /\ c = x /\ after = [].
Proof.
  revert before. induction cs as [|c' cs IH]; intros before Hall Heq Hc.
  - destruct before as [|b before]; simpl in Heq.
    + injection Heq as -> <-. auto.
    + injection Heq as _ Heq. now destruct before.
  - apply Forall_cons in Hall as [Hc' Hall].
    destruct before as [|b before]; simpl in Heq.
    + injection Heq as -> _. congruence.
    + injection Heq as -> Heq.
      destruct (IH before Hall Heq Hc) as (-> & -> & ->). auto.
Qed.

Lemma filter_isAddProfileOR_buildCalls alg pcr base digests :
  List.filter isAddProfileOR (buildCalls alg pcr base digests) = [].
Proof.
  revert base. induction digests as [|digest rest IH]; intros base; simpl; auto.
Qed.

Lemma accepted_chain alg (model : option asserts.Model) digest :
  accepted alg model digest ->
  exists m signKeyId,
    model = Some m /\
    base64.DecodeString (asserts.SignKeyID m) = (signKeyId, None) /\
    let H := tpm2.digestOf alg in
    let digest1 := H (signKeyId ++ list_byte_of_string (asserts.BrandID m)) in
    let digest2 := H (digest1 ++ list_byte_of_string (asserts.Model_ m)) in
    digest = H (digest2 ++ list_byte_of_string (asserts.Series m)).
Proof.
  intros (m & signKeyId & -> & Hdec & ->). exists m, signKeyId. auto.
Qed.

(** ** Successful calls *)

(** C1. A call on a profile of the store that returns nil (so
    [params.PCRIndex] is not negative, [params.Models] is not empty and every
    model is accepted) has built exactly one sub-profile per model, in the
    order of [params.Models] (the calls of the run are the creation and
    extension of one new profile per model, at consecutive new references),
    and has then passed all of them, in that order, in one [AddProfileOR]
    call on [profile], the only one of the run; the tree of [profile] has
    had its leaves replaced by the branch over their trees. *)
Theorem AddSnapModelProfile_one_subprofile_per_model profile params s s' :
  profile < length (store s) ->
  AddSnapModelProfile profile params s = Returns None s' ->
  (0 <= PCRIndex params)%Z /\
  Models params <> [] /\
  exists subProfiles digests,
    Forall2 (accepted (PCRAlgorithm params)) (Models params) digests /\
    subProfiles = seq (length (store s)) (length (Models params)) /\
    Forall2 (fun p digest =>
               store s' !! p
               = Some (subProfileTree (PCRAlgorithm params) (PCRIndex params) digest))
            subProfiles digests /\
    calls s' = calls s ++
               buildCalls (PCRAlgorithm params) (PCRIndex params) (length (store s)) digests ++
               [CallAddProfileOR profile subProfiles] /\
    List.filter isAddProfileOR (drop (length (calls s)) (calls s'))
    = [CallAddProfileOR profile subProfiles] /\
    exists t,
      store s !! profile = Some t /\
      store s' !! profile
      = Some (replaceLeaves
                (Branch (List.map (subProfileTree (PCRAlgorithm params) (PCRIndex params))
                                  digests))
                t).
Proof.
  intros Hlive Hrun.
  apply AddSnapModelProfile_nil_inv in Hrun as (digests & t & Hpos & Hne & Hall & Ht & ->);
    [|assumption].
  pose proof (Forall2_length _ _ _ Hall) as Hlen.
  split; [assumption|]. split; [assumption|].
  exists (seq (length (store s)) (length (Models params))), digests.
  split; [assumption|]. split; [reflexivity|]. split; [|split; [|split]].
  - apply Forall2_same_length_lookup_2.
    + now rewrite length_seq.
    + intros i p digest Hp Hd. apply lookup_seq in Hp as [-> _].
      now apply branched_lookup_subProfile.
  - unfold branched. simpl. now rewrite Hlen.
  - unfold branched. simpl. rewrite drop_app_length, List.filter_app.
    rewrite filter_isAddProfileOR_buildCalls. simpl. now rewrite Hlen.
  - exists t. split; [assumption|]. now apply branched_lookup_profile.
Qed.

(** C2. In every run that returns, the digest extended into the PCR for the
    [i]-th model is the three-stage chained hash under [params.PCRAlgorithm]:
    [digest1 = H(decoded sign key ID || brand ID)],
    [digest2 = H(digest1 || model)] and the extended value is
    [H(digest2 || series)], the strings being hashed as their bytes; when the
    result is nil there is one such digest for every model. *)
Theorem extended_digest_is_three_stage_hash profile params s r s' :
  AddSnapModelProfile profile params s = Returns r s' ->
  (r = None ->
   length (extendedDigests (drop (length (calls s)) (calls s'))) = length (Models params)) /\
  forall i digest,
    extendedDigests (drop (length (calls s)) (calls s')) !! i = Some digest ->
    exists model signKeyId,
      Models params !! i = Some (Some model) /\
      base64.DecodeString (asserts.SignKeyID model) = (signKeyId, None) /\
      let H := tpm2.digestOf (PCRAlgorithm params) in
      let digest1 := H (signKeyId ++ list_byte_of_string (asserts.BrandID model)) in
      let digest2 := H (digest1 ++ list_byte_of_string (asserts.Model_ model)) in
      digest = H (digest2 ++ list_byte_of_string (asserts.Series model)).
Proof.
  intros Hrun. split.
  - intros ->.
    apply AddSnapModelProfile_calls in Hrun as (digests & _ & Hlen & ->).
    rewrite drop_app_length, extendedDigests_app, extendedDigests_buildCalls. simpl.
    rewrite app_nil_r. auto.
  - intros i digest Hi.
    destruct (extended_digest_accepted _ _ _ _ _ _ _ Hrun Hi) as (model & Hm & Hacc).
    apply accepted_chain in Hacc as (m & signKeyId & -> & Hdec & Hchain).
    exists m, signKeyId. auto.
Qed.

(** ** Calls that return an error *)

(** C3 (as amended). A call with an empty [params.Models] returns a non-nil
    error and changes nothing: no object is created and no call is made on
    any profile.  The error is "no models provided" when [params.PCRIndex] is
    not negative; a negative index is reported first, as "invalid PCR
    index". *)
Theorem empty_models_error profile params s :
  Models params = [] ->
  AddSnapModelProfile profile params s
  = Returns (Some (errors.New (if (PCRIndex params <? 0)%Z
                               then "invalid PCR index"
                               else "no models provided")))
            s.
Proof.
  intros Hmodels. rewrite AddSnapModelProfile_run, Hmodels.
  now destruct (PCRIndex params <? 0)%Z.
Qed.

(** C4. The error "invalid PCR index" is returned if and only if
    [params.PCRIndex] is negative; in particular it is not returned for the
    index 0. *)
Theorem invalid_PCR_index_iff_negative profile params s :
  ((exists s', AddSnapModelProfile profile params s
               = Returns (Some (errors.New "invalid PCR index")) s')
   <-> (PCRIndex params < 0)%Z) /\
  (PCRIndex params = 0%Z ->
   forall s', AddSnapModelProfile profile params s
              <> Returns (Some (errors.New "invalid PCR index")) s').
Proof.
  assert (forall s', AddSnapModelProfile profile params s
                     = Returns (Some (errors.New "invalid PCR index")) s' ->
                     (PCRIndex params < 0)%Z) as Hneg.
  { intros s' Hrun.
    apply AddSnapModelProfile_error_inv in Hrun
      as [(Hlt & _)|[(_ & _ & Herr & _)|(_ & pre & bad & post & digests & _ & _ & Hbad & _)]].
    - assumption.
    - discriminate.
    - apply checkModel_refused in Hbad
        as [[_ Herr]|(m & partial & cause & _ & _ & Herr)]; discriminate. }
  split; [split|].
  - intros [s' Hrun]. eauto.
  - intros Hlt. exists s. rewrite AddSnapModelProfile_run.
    destruct (Z.ltb_spec (PCRIndex params) 0); [reflexivity|lia].
  - intros Hzero s' Hrun. apply Hneg in Hrun. lia.
Qed.

(** C5. A call that returns a non-nil error leaves every profile of the
    store, the argument among them, as it was: the calls of the run are made
    on objects that did not exist before and none of them is [AddProfileOR].
    In any run, [AddProfileOR] is called only once every model has been
    accepted and its sub-profile built, as the last call of a run that
    returns nil. *)
Theorem error_leaves_profile_unchanged profile params s r s' :
  AddSnapModelProfile profile params s = Returns r s' ->
  exists new,
    calls s' = calls s ++ new /\
    (forall err, r = Some err ->
       (forall t, store s !! profile = Some t -> store s' !! profile = Some t) /\
       (forall q t, store s !! q = Some t -> store s' !! q = Some t) /\
       Forall (fun c => isAddProfileOR c = false /\ store s !! receiver c = None) new) /\
    (forall before c after,
       new = before ++ c :: after ->
       isAddProfileOR c = true ->
       r = None /\ after = [] /\
       exists digests,
         Forall2 (accepted (PCRAlgorithm params)) (Models params) digests /\
         before = buildCalls (PCRAlgorithm params) (PCRIndex params)
                             (length (store s)) digests).
Proof.
  intros Hrun.
  destruct (AddSnapModelProfile_calls _ _ _ _ _ Hrun) as (digests & Hall & Hlen & Hcalls).
  eexists. split; [exact Hcalls|]. split.
  - intros err ->. rewrite app_nil_r.
    assert (forall q t, store s !! q = Some t -> store s' !! q = Some t) as Hkeep.
    { apply AddSnapModelProfile_error_inv in Hrun
        as [(_ & _ & ->)|[(_ & _ & _ & ->)|(_ & pre & bad & post & ds & _ & _ & _ & ->)]];
        auto using built_lookup_old. }
    split; [auto|]. split; [assumption|].
    eapply Forall_impl; [apply buildCalls_fresh|].
    simpl. intros c [Hc Hle]. split; [assumption|]. now apply lookup_ge_None.
  - intros before c after Hnew Hc.
    pose proof (buildCalls_fresh (PCRAlgorithm params) (PCRIndex params)
                  (length (store s)) digests) as Hfresh.
    assert (Forall (fun c => isAddProfileOR c = false)
              (buildCalls (PCRAlgorithm params) (PCRIndex params)
                 (length (store s)) digests)) as Hnone.
    { eapply Forall_impl; [exact Hfresh|]. simpl. tauto. }
    destruct r as [err|].
    + rewrite app_nil_r in Hnew. rewrite Hnew in Hnone.
      apply Forall_app in Hnone as [_ Hnone]. apply Forall_cons in Hnone as [Hc' _].
      congruence.
    + destruct (last_AddProfileOR _ _ _ _ _ Hnone Hnew Hc) as (-> & _ & ->).
      repeat split. exists digests. split; [|reflexivity].
      specialize (Hlen eq_refl). rewrite Hlen, firstn_all in Hall. assumption.
Qed.

(** Accepted entries at the head of a list end before a model whose sign
    key ID does not decode. *)
Lemma accepted_before_undecodable alg (l rest pre post : list (option asserts.Model))
    model partial cause digests :
  base64.DecodeString (asserts.SignKeyID model) = (partial, Some cause) ->
  l ++ rest = pre ++ Some model :: post ->
  Forall2 (accepted alg) l digests ->
  length l <= length pre /\ l = take (length l) pre.
Proof.
  intros Hdec Heq Hall.
  assert (length l <= length pre) as Hle.
  { destruct (Nat.le_gt_cases (length l) (length pre)) as [Hle|Hgt]; [assumption|].
    assert (l !! length pre = Some (Some model)) as Hl.
    { rewrite <- (lookup_app_l l rest) by assumption.
      rewrite Heq. now rewrite list_lookup_middle. }
    destruct (Forall2_lookup_l _ _ _ _ _ Hall Hl) as (d & _ & m & k & [= <-] & Hk & _).
    congruence. }
  split; [assumption|].
  rewrite <- (take_app_le pre (Some model :: post)) by assumption.
  now rewrite <- Heq, take_app_length.
Qed.

(** C9 (as amended). When [params.PCRIndex] is not negative, the entries
    before the first nil entry of [params.Models] are all accepted and,
    if there is such an entry, [params.PCRAlgorithm] has a hash function,
    the call returns the error "nil model" at the nil entry: the
    sub-profiles of the entries before it have been built, nothing has been
    hashed or built for the nil entry or a later one, and no profile of the
    store has changed. *)
Theorem nil_model_error profile params s pre post digests :
  (0 <= PCRIndex params)%Z ->
  Models params = pre ++ None :: post ->
  Forall2 (accepted (PCRAlgorithm params)) pre digests ->
  pre = [] \/ tpm2.Supported (PCRAlgorithm params) = true ->
  AddSnapModelProfile profile params s
  = Returns (Some (errors.New "nil model")) (built params digests s) /\
  extendedDigests (drop (length (calls s)) (calls (built params digests s))) = digests /\
  length digests = length pre.
Proof.
  intros Hpos Hmodels Hall Hhash. split; [|split].
  - eapply AddSnapModelProfile_error_intro; eauto.
  - unfold built. simpl. now rewrite drop_app_length, extendedDigests_buildCalls.
  - symmetry. eapply Forall2_length. eassumption.
Qed.

(** C10 (as amended). When a model of [params.Models] has a sign key ID
    that is not valid base64 raw-URL text, then for every index and every
    list around it:
    - a call that returns, returns a non-nil error, and all it has done is
      to build the sub-profiles of accepted entries that come before the
      model: no [AddProfileOR] call is made, so no sub-profile is added to
      the profile, none is built for the model or a later entry, and no
      profile of the store has changed;
    - the call does return when the model is the first entry or
      [params.PCRAlgorithm] has a hash function;
    - when moreover [params.PCRIndex] is not negative and the entries before
      the model are all accepted, the error is the one that wraps the
      decoding error with the text "cannot decode signing key ID", and the
      sub-profiles of all these entries have been built. *)
Theorem undecodable_sign_key_error profile params s pre model post partial cause :
  Models params = pre ++ Some model :: post ->
  base64.DecodeString (asserts.SignKeyID model) = (partial, Some cause) ->
  (forall r s',
      AddSnapModelProfile profile params s = Returns r s' ->
      exists err digests,
        r = Some err /\
        s' = built params digests s /\
        length digests <= length pre /\
        Forall2 (accepted (PCRAlgorithm params)) (take (length digests) pre) digests /\
        List.filter isAddProfileOR (drop (length (calls s)) (calls s')) = [] /\
        extendedDigests (drop (length (calls s)) (calls s')) = digests /\
        (forall q t, store s !! q = Some t -> store s' !! q = Some t)) /\
  (pre = [] \/ tpm2.Supported (PCRAlgorithm params) = true ->
   exists err s', AddSnapModelProfile profile params s = Returns (Some err) s') /\
  (forall digests,
      (0 <= PCRIndex params)%Z ->
      Forall2 (accepted (PCRAlgorithm params)) pre digests ->
      pre = [] \/ tpm2.Supported (PCRAlgorithm params) = true ->
      AddSnapModelProfile profile params s
      = Returns (Some (xerrors.Errorf "cannot decode signing key ID: " cause))
                (built params digests s) /\
      xerrors.Unwrap (xerrors.Errorf "cannot decode signing key ID: " cause) = Some cause /\
      List.filter isAddProfileOR (drop (length (calls s)) (calls (built params digests s)))
      = [] /\
      extendedDigests (drop (length (calls s)) (calls (built params digests s))) = digests /\
      length digests = length pre /\
      (forall q t, store s !! q = Some t -> store (built params digests s) !! q = Some t)).
Proof.
  intros Hmodels Hdec.
  assert (forall digests, ~ Forall2 (accepted (PCRAlgorithm params)) (Models params) digests)
    as Hsome.
  { intros digests Hall.
    destruct (accepted_before_undecodable (PCRAlgorithm params) (Models params) [] pre post
                model partial cause digests Hdec) as [Hle _];
      [now rewrite app_nil_r|assumption|].
    rewrite Hmodels, length_app in Hle. simpl in Hle. lia. }
  assert (forall digests s',
             s' = built params digests s ->
             List.filter isAddProfileOR (drop (length (calls s)) (calls s')) = [] /\
             extendedDigests (drop (length (calls s)) (calls s')) = digests /\
             (forall q t, store s !! q = Some t -> store s' !! q = Some t)) as Hbuilt.
  { intros digests s' ->. unfold built at 1 2. simpl.
    rewrite drop_app_length, filter_isAddProfileOR_buildCalls, extendedDigests_buildCalls.
    repeat split. intros q t. apply built_lookup_old. }
  split; [|split].
  - intros r s' Hrun. destruct r as [err|].
    + exists err.
      apply AddSnapModelProfile_error_inv in Hrun
        as [(_ & _ & ->)|[(_ & Hnil & _)
                         |(_ & pre' & bad & post' & ds & Heq & Hall & _ & ->)]].
      * exists []. rewrite built_nil. split; [reflexivity|]. split; [reflexivity|].
        split; [simpl; lia|]. split; [constructor|].
        apply Hbuilt. now rewrite built_nil.
      * rewrite Hmodels in Hnil. now destruct pre.
      * exists ds. split; [reflexivity|]. split; [reflexivity|].
        rewrite Hmodels in Heq.
        destruct (accepted_before_undecodable (PCRAlgorithm params) pre' (bad :: post')
                    pre post model partial cause ds Hdec (eq_sym Heq) Hall) as [Hle Htake].
        rewrite <- (Forall2_length _ _ _ Hall).
        split; [assumption|]. split; [now rewrite <- Htake|].
        now apply Hbuilt.
    + exfalso.
      destruct (AddSnapModelProfile_calls _ _ _ _ _ Hrun) as (ds & Hall & Hlen & _).
      rewrite (Hlen eq_refl), firstn_all in Hall. now apply (Hsome ds).
  - intros Hhash. rewrite AddSnapModelProfile_run.
    destruct (PCRIndex params <? 0)%Z; [eauto|].
    destruct (Models params) as [|model' rest] eqn:Hm; [now destruct pre|].
    destruct (scanModels (PCRAlgorithm params) (model' :: rest)) as [ds r] eqn:Hscan.
    assert (hashReady (PCRAlgorithm params) ds = true) as ->.
    { destruct Hhash as [->|Hsup]; [|now apply hashReady_supported].
      simpl in Hmodels. injection Hmodels as -> ->. simpl in Hscan.
      rewrite Hdec in Hscan. now injection Hscan as <- _. }
    destruct r as [err|]; [eauto|].
    apply scanModels_all_accepted in Hscan. now apply Hsome in Hscan.
  - intros digests Hpos Hall Hhash.
    destruct (Hbuilt digests _ eq_refl) as (Hnone & Hdigests & Hkeep).
    repeat split; try assumption.
    + eapply AddSnapModelProfile_error_intro; eauto.
      unfold checkModel. now rewrite Hdec.
    + symmetry. eapply Forall2_length. eassumption.
Qed.

(** ** The sub-profiles *)

(** C6. After a call on a profile of the store that returns nil, every
    sub-profile passed to [AddProfileOR] is an object that did not exist
    before the call, on which exactly two calls were made: its creation and
    one [ExtendPCR] for the pair [(params.PCRAlgorithm, params.PCRIndex)]
    with the measurement of the model at the same position; its tree is that
    one [Extend] step followed by [End]. *)
Theorem subprofile_is_new_profile_extended_once profile params s s' :
  profile < length (store s) ->
  AddSnapModelProfile profile params s = Returns None s' ->
  exists subProfiles,
    last (calls s') = Some (CallAddProfileOR profile subProfiles) /\
    length subProfiles = length (Models params) /\
    forall i p,
      subProfiles !! i = Some p ->
      store s !! p = None /\
      exists model signKeyId,
        Models params !! i = Some (Some model) /\
        base64.DecodeString (asserts.SignKeyID model) = (signKeyId, None) /\
        callsOn p (drop (length (calls s)) (calls s'))
        = [CallNew p;
           CallExtendPCR p (PCRAlgorithm params) (PCRIndex params)
                         (measurement (PCRAlgorithm params) signKeyId model)] /\
        store s' !! p
        = Some (Extend (PCRAlgorithm params) (PCRIndex params)
                       (measurement (PCRAlgorithm params) signKeyId model) End_).
Proof.
  intros Hlive Hrun.
  apply AddSnapModelProfile_nil_inv in Hrun as (digests & t & _ & _ & Hall & Ht & ->);
    [|assumption].
  pose proof (Forall2_length _ _ _ Hall) as Hlen.
  exists (seq (length (store s)) (length digests)). split; [|split].
  - unfold branched. simpl. now rewrite !app_assoc, last_snoc.
  - now rewrite length_seq.
  - intros i p Hp. apply lookup_seq in Hp as [-> Hi].
    split; [apply lookup_ge_None; lia|].
    destruct (lookup_lt_is_Some_2 digests i Hi) as [digest Hd].
    destruct (Forall2_lookup_r _ _ _ _ _ Hall Hd) as (entry & Hentry & Hacc).
    destruct Hacc as (model & signKeyId & -> & Hdec & ->).
    exists model, signKeyId. split; [assumption|]. split; [assumption|]. split.
    + unfold branched. simpl. rewrite drop_app_length, callsOn_app.
      rewrite (callsOn_buildCalls _ _ _ _ _ _ Hd).
      unfold callsOn. simpl.
      destruct (Nat.eqb_spec profile (length (store s) + i)) as [Heq|_]; [lia|].
      reflexivity.
    + now apply branched_lookup_subProfile.
Qed.

(** C7. The digest computed for a model is a function of
    [params.PCRAlgorithm] and of the four fields of the model: in two runs,
    whatever their profiles, states, indices and other models, two models
    with equal fields are extended with equal digests. *)
Theorem measurement_deterministic
    profile1 params1 s1 r1 s1' profile2 params2 s2 r2 s2'
    i1 i2 (model1 model2 : asserts.Model) digest1 digest2 :
  AddSnapModelProfile profile1 params1 s1 = Returns r1 s1' ->
  AddSnapModelProfile profile2 params2 s2 = Returns r2 s2' ->
  PCRAlgorithm params1 = PCRAlgorithm params2 ->
  Models params1 !! i1 = Some (Some model1) ->
  Models params2 !! i2 = Some (Some model2) ->
  asserts.SignKeyID model1 = asserts.SignKeyID model2 ->
  asserts.BrandID model1 = asserts.BrandID model2 ->
  asserts.Model_ model1 = asserts.Model_ model2 ->
  asserts.Series model1 = asserts.Series model2 ->
  extendedDigests (drop (length (calls s1)) (calls s1')) !! i1 = Some digest1 ->
  extendedDigests (drop (length (calls s2)) (calls s2')) !! i2 = Some digest2 ->
  digest1 = digest2.
Proof.
  intros Hrun1 Hrun2 Halg Hm1 Hm2 Hkey Hbrand Hmodel Hseries Hd1 Hd2.
  destruct (extended_digest_accepted _ _ _ _ _ _ _ Hrun1 Hd1) as (entry1 & He1 & Hacc1).
  destruct (extended_digest_accepted _ _ _ _ _ _ _ Hrun2 Hd2) as (entry2 & He2 & Hacc2).
  assert (model1 = model2) as Heq.
  { destruct model1, model2. simpl in *. congruence. }
  rewrite Hm1 in He1. rewrite Hm2 in He2.
  injection He1 as <-. injection He2 as <-.
  rewrite Halg, Heq in Hacc1.
  eapply accepted_functional; eassumption.
Qed.

(** C8. The [i]-th sub-profile depends on [params.PCRAlgorithm],
    [params.PCRIndex] and the [i]-th model only: two calls that return nil
    and agree on these, whatever their other models, profiles and states,
    give their [i]-th sub-profiles the same tree, hence the same digest.  The
    sub-profiles of a call are pairwise distinct objects that did not exist
    before the call, and none of them is the profile argument. *)
Theorem subprofile_depends_on_its_model_only
    profile1 params1 s1 s1' profile2 params2 s2 s2' i (model : option asserts.Model) :
  profile1 < length (store s1) ->
  profile2 < length (store s2) ->
  AddSnapModelProfile profile1 params1 s1 = Returns None s1' ->
  AddSnapModelProfile profile2 params2 s2 = Returns None s2' ->
  PCRAlgorithm params1 = PCRAlgorithm params2 ->
  PCRIndex params1 = PCRIndex params2 ->
  Models params1 !! i = Some model ->
  Models params2 !! i = Some model ->
  exists subProfiles1 subProfiles2 p1 p2 digest,
    last (calls s1') = Some (CallAddProfileOR profile1 subProfiles1) /\
    last (calls s2') = Some (CallAddProfileOR profile2 subProfiles2) /\
    subProfiles1 !! i = Some p1 /\
    subProfiles2 !! i = Some p2 /\
    store s1' !! p1 = Some (Extend (PCRAlgorithm params1) (PCRIndex params1) digest End_) /\
    store s2' !! p2 = Some (Extend (PCRAlgorithm params1) (PCRIndex params1) digest End_) /\
    NoDup subProfiles1 /\
    NoDup subProfiles2 /\
    Forall (fun p => store s1 !! p = None /\ p <> profile1) subProfiles1 /\
    Forall (fun p => store s2 !! p = None /\ p <> profile2) subProfiles2.
Proof.
  intros Hlive1 Hlive2 Hrun1 Hrun2 Halg Hpcr Hm1 Hm2.
  apply AddSnapModelProfile_nil_inv in Hrun1 as (digests1 & t1 & _ & _ & Hall1 & Ht1 & ->);
    [|assumption].
  apply AddSnapModelProfile_nil_inv in Hrun2 as (digests2 & t2 & _ & _ & Hall2 & Ht2 & ->);
    [|assumption].
  destruct (Forall2_lookup_l _ _ _ _ _ Hall1 Hm1) as (digest & Hd1 & Hacc1).
  destruct (Forall2_lookup_l _ _ _ _ _ Hall2 Hm2) as (digest' & Hd2 & Hacc2).
  rewrite <- Halg in Hacc2.
  assert (digest' = digest) as -> by (eapply accepted_functional; eassumption).
  exists (seq (length (store s1)) (length digests1)),
         (seq (length (store s2)) (length digests2)),
         (length (store s1) + i), (length (store s2) + i), digest.
  assert (forall (st : list ProfileNode) q n,
             q < length st ->
             Forall (fun p => st !! p = None /\ p <> q) (seq (length st) n)) as Hfresh.
  { intros st q n Hq. apply Forall_forall. intros p Hp.
    apply elem_of_seq in Hp. split; [apply lookup_ge_None|]; lia. }
  repeat split.
  - unfold branched. simpl. now rewrite !app_assoc, last_snoc.
  - unfold branched. simpl. now rewrite !app_assoc, last_snoc.
  - apply lookup_seq. split; [reflexivity|]. eapply lookup_lt_Some; eassumption.
  - apply lookup_seq. split; [reflexivity|]. eapply lookup_lt_Some; eassumption.
  - now apply branched_lookup_subProfile.
  - rewrite Halg, Hpcr. now apply (branched_lookup_subProfile profile2 params2).
  - apply NoDup_seq.
  - apply NoDup_seq.
  - now apply Hfresh.
  - now apply Hfresh.
Qed.

End Properties.


(** * The theorems on sample data *)

(** ** The sample runs *)

Lemma sample_live0 : Sample.profile0 < length (store Sample.s0).
Proof. apply le_n. Defined.

Lemma sample_live1 : Sample.profile1 < length (store Sample.s1).
Proof. apply le_n. Defined.

Lemma sample_run_two_models :
  AddSnapModelProfile Sample.profile0 Sample.paramsTwoModels Sample.s0
  = Returns None Sample.afterTwoModels.
Proof. reflexivity. Defined.

Lemma sample_run_three_models :
  AddSnapModelProfile Sample.profile1 Sample.paramsThreeModels Sample.s1
  = Returns None Sample.afterThreeModels.
Proof. reflexivity. Defined.

Lemma sample_run_model_then_undecodable :
  AddSnapModelProfile Sample.profile0 Sample.paramsModelThenBad Sample.s0
  = Returns (Some (xerrors.Errorf "cannot decode signing key ID: " (CorruptInputError 36)))
            Sample.afterModelThenBad.
Proof. reflexivity. Defined.

Lemma sample_run_no_models_negative_index :
  AddSnapModelProfile Sample.profile0 Sample.paramsEmptyNegative Sample.s0
  = Returns (Some (errors.New "invalid PCR index")) Sample.s0.
Proof. reflexivity. Defined.

Lemma sample_run_undecodable_then_nil :
  AddSnapModelProfile Sample.profile0 Sample.paramsBadThenNil Sample.s0
  = Returns (Some (xerrors.Errorf "cannot decode signing key ID: " (CorruptInputError 36)))
            Sample.s0.
Proof. reflexivity. Defined.

Lemma sample_run_nil_then_undecodable :
  AddSnapModelProfile Sample.profile0 Sample.paramsNilThenBad Sample.s0
  = Returns (Some (errors.New "nil model")) Sample.s0.
Proof. reflexivity. Defined.

(** For an algorithm without a hash function the call fails at the first
    accepted entry, whatever follows it. *)
Lemma sample_run_no_hash :
  AddSnapModelProfile Sample.profile0 Sample.paramsNoHash Sample.s0
  = Panics HashUnavailable.
Proof. reflexivity. Defined.

Lemma sample_run_no_hash_model_then_nil :
  AddSnapModelProfile Sample.profile0 Sample.paramsNoHashModelThenNil Sample.s0
  = Panics HashUnavailable.
Proof. reflexivity. Defined.

Lemma sample_run_no_hash_model_then_undecodable :
  AddSnapModelProfile Sample.profile0 Sample.paramsNoHashModelThenBad Sample.s0
  = Panics HashUnavailable.
Proof. reflexivity. Defined.

Lemma sample_hash_available :
  [Some Sample.model1] = [] \/ tpm2.Supported Sample.SHA256 = true.
Proof. right. reflexivity. Defined.

Lemma sample_model1_accepted :
  Forall2 (accepted Sample.SHA256) [Some Sample.model1] [Sample.digest1].
Proof.
  constructor; [|constructor].
  exists Sample.model1, Sample.signKeyId1. repeat split.
Defined.

Lemma sample_index_not_negative : (0 <= 12)%Z.
Proof. discriminate. Defined.

(** ** Successful calls *)

Lemma sample_two_models_added :
  Sample.profile0 < length (store Sample.s0) /\
  AddSnapModelProfile Sample.profile0 Sample.paramsTwoModels Sample.s0
  = Returns None Sample.afterTwoModels /\
  (0 <= PCRIndex Sample.paramsTwoModels)%Z /\
  Models Sample.paramsTwoModels <> [] /\
  exists subProfiles digests,
    Forall2 (accepted (PCRAlgorithm Sample.paramsTwoModels))
            (Models Sample.paramsTwoModels) digests /\
    subProfiles = seq (length (store Sample.s0)) (length (Models Sample.paramsTwoModels)) /\
    Forall2 (fun p digest =>
               store Sample.afterTwoModels !! p
               = Some (subProfileTree (PCRAlgorithm Sample.paramsTwoModels)
                                      (PCRIndex Sample.paramsTwoModels) digest))
            subProfiles digests /\
    calls Sample.afterTwoModels
    = calls Sample.s0 ++
      buildCalls (PCRAlgorithm Sample.paramsTwoModels) (PCRIndex Sample.paramsTwoModels)
                 (length (store Sample.s0)) digests ++
      [CallAddProfileOR Sample.profile0 subProfiles] /\
    List.filter isAddProfileOR (drop (length (calls Sample.s0)) (calls Sample.afterTwoModels))
    = [CallAddProfileOR Sample.profile0 subProfiles] /\
    exists t,
      store Sample.s0 !! Sample.profile0 = Some t /\
      store Sample.afterTwoModels !! Sample.profile0
      = Some (replaceLeaves
                (Branch (List.map (subProfileTree (PCRAlgorithm Sample.paramsTwoModels)
                                                  (PCRIndex Sample.paramsTwoModels))
                                  digests))
                t).
Proof.
  split; [exact sample_live0|]. split; [exact sample_run_two_models|].
  exact (AddSnapModelProfile_one_subprofile_per_model
           Sample.profile0 Sample.paramsTwoModels Sample.s0 Sample.afterTwoModels
           sample_live0 sample_run_two_models).
Defined.

Lemma sample_two_models_digests :
  AddSnapModelProfile Sample.profile0 Sample.paramsTwoModels Sample.s0
  = Returns None Sample.afterTwoModels /\
  (@None error = None ->
   length (extendedDigests (drop (length (calls Sample.s0)) (calls Sample.afterTwoModels)))
   = length (Models Sample.paramsTwoModels)) /\
  forall i digest,
    extendedDigests (drop (length (calls Sample.s0)) (calls Sample.afterTwoModels)) !! i
    = Some digest ->
    exists model signKeyId,
      Models Sample.paramsTwoModels !! i = Some (Some model) /\
      base64.DecodeString (asserts.SignKeyID model) = (signKeyId, None) /\
      let H := tpm2.digestOf (PCRAlgorithm Sample.paramsTwoModels) in
      let digest1 := H (signKeyId ++ list_byte_of_string (asserts.BrandID model)) in
      let digest2 := H (digest1 ++ list_byte_of_string (asserts.Model_ model)) in
      digest = H (digest2 ++ list_byte_of_string (asserts.Series model)).
Proof.
  split; [exact sample_run_two_models|].
  exact (extended_digest_is_three_stage_hash
           Sample.profile0 Sample.paramsTwoModels Sample.s0 None Sample.afterTwoModels
           sample_run_two_models).
Defined.

Lemma sample_two_models_subprofiles :
  Sample.profile0 < length (store Sample.s0) /\
  AddSnapModelProfile Sample.profile0 Sample.paramsTwoModels Sample.s0
  = Returns None Sample.afterTwoModels /\
  exists subProfiles,
    last (calls Sample.afterTwoModels)
    = Some (CallAddProfileOR Sample.profile0 subProfiles) /\
    length subProfiles = length (Models Sample.paramsTwoModels) /\
    forall i p,
      subProfiles !! i = Some p ->
      store Sample.s0 !! p = None /\
      exists model signKeyId,
        Models Sample.paramsTwoModels !! i = Some (Some model) /\
        base64.DecodeString (asserts.SignKeyID model) = (signKeyId, None) /\
        callsOn p (drop (length (calls Sample.s0)) (calls Sample.afterTwoModels))
        = [CallNew p;
           CallExtendPCR p (PCRAlgorithm Sample.paramsTwoModels)
                         (PCRIndex Sample.paramsTwoModels)
                         (measurement (PCRAlgorithm Sample.paramsTwoModels) signKeyId model)] /\
        store Sample.afterTwoModels !! p
        = Some (Extend (PCRAlgorithm Sample.paramsTwoModels)
                       (PCRIndex Sample.paramsTwoModels)
                       (measurement (PCRAlgorithm Sample.paramsTwoModels) signKeyId model)
                       End_).
Proof.
  split; [exact sample_live0|]. split; [exact sample_run_two_models|].
  exact (subprofile_is_new_profile_extended_once
           Sample.profile0 Sample.paramsTwoModels Sample.s0 Sample.afterTwoModels
           sample_live0 sample_run_two_models).
Defined.

Lemma sample_same_model_same_digest :
  AddSnapModelProfile Sample.profile0 Sample.paramsTwoModels Sample.s0
  = Returns None Sample.afterTwoModels /\
  AddSnapModelProfile Sample.profile1 Sample.paramsThreeModels Sample.s1
  = Returns None Sample.afterThreeModels /\
  Models Sample.paramsTwoModels !! 0 = Some (Some Sample.model1) /\
  Models Sample.paramsThreeModels !! 2 = Some (Some Sample.model1) /\
  extendedDigests (drop (length (calls Sample.s0)) (calls Sample.afterTwoModels)) !! 0
  = Some Sample.digest1 /\
  extendedDigests (drop (length (calls Sample.s1)) (calls Sample.afterThreeModels)) !! 2
  = Some Sample.digest1 /\
  Sample.digest1 = Sample.digest1.
Proof.
  assert (extendedDigests (drop (length (calls Sample.s0)) (calls Sample.afterTwoModels)) !! 0
          = Some Sample.digest1) as Hd1 by reflexivity.
  assert (extendedDigests (drop (length (calls Sample.s1)) (calls Sample.afterThreeModels)) !! 2
          = Some Sample.digest1) as Hd2 by reflexivity.
  split; [exact sample_run_two_models|]. split; [exact sample_run_three_models|].
  split; [reflexivity|]. split; [reflexivity|].
  split; [exact Hd1|]. split; [exact Hd2|].
  exact (measurement_deterministic
           Sample.profile0 Sample.paramsTwoModels Sample.s0 None Sample.afterTwoModels
           Sample.profile1 Sample.paramsThreeModels Sample.s1 None Sample.afterThreeModels
           0 2 Sample.model1 Sample.model1 Sample.digest1 Sample.digest1
           sample_run_two_models sample_run_three_models
           eq_refl eq_refl eq_refl eq_refl eq_refl eq_refl eq_refl Hd1 Hd2).
Defined.

Lemma sample_same_position_same_subprofile :
  Sample.profile0 < length (store Sample.s0) /\
  Sample.profile1 < length (store Sample.s1) /\
  AddSnapModelProfile Sample.profile0 Sample.paramsTwoModels Sample.s0
  = Returns None Sample.afterTwoModels /\
  AddSnapModelProfile Sample.profile1 Sample.paramsThreeModels Sample.s1
  = Returns None Sample.afterThreeModels /\
  PCRAlgorithm Sample.paramsTwoModels = PCRAlgorithm Sample.paramsThreeModels /\
  PCRIndex Sample.paramsTwoModels = PCRIndex Sample.paramsThreeModels /\
  Models Sample.paramsTwoModels !! 1 = Some (Some Sample.model2) /\
  Models Sample.paramsThreeModels !! 1 = Some (Some Sample.model2) /\
  exists subProfiles1 subProfiles2 p1 p2 digest,
    last (calls Sample.afterTwoModels)
    = Some (CallAddProfileOR Sample.profile0 subProfiles1) /\
    last (calls Sample.afterThreeModels)
    = Some (CallAddProfileOR Sample.profile1 subProfiles2) /\
    subProfiles1 !! 1 = Some p1 /\
    subProfiles2 !! 1 = Some p2 /\
    store Sample.afterTwoModels !! p1
    = Some (Extend (PCRAlgorithm Sample.paramsTwoModels) (PCRIndex Sample.paramsTwoModels)
                   digest End_) /\
    store Sample.afterThreeModels !! p2
    = Some (Extend (PCRAlgorithm Sample.paramsTwoModels) (PCRIndex Sample.paramsTwoModels)
                   digest End_) /\
    NoDup subProfiles1 /\
    NoDup subProfiles2 /\
    Forall (fun p => store Sample.s0 !! p = None /\ p <> Sample.profile0) subProfiles1 /\
    Forall (fun p => store Sample.s1 !! p = None /\ p <> Sample.profile1) subProfiles2.
Proof.
  split; [exact sample_live0|]. split; [exact sample_live1|].
  split; [exact sample_run_two_models|]. split; [exact sample_run_three_models|].
  repeat (split; [reflexivity|]).
  exact (subprofile_depends_on_its_model_only
           Sample.profile0 Sample.paramsTwoModels Sample.s0 Sample.afterTwoModels
           Sample.profile1 Sample.paramsThreeModels Sample.s1 Sample.afterThreeModels
           1 (Some Sample.model2)
           sample_live0 sample_live1 sample_run_two_models sample_run_three_models
           eq_refl eq_refl eq_refl eq_refl).
Defined.

(** ** Calls that return an error *)

Lemma sample_empty_model_list :
  Models Sample.paramsEmpty = [] /\
  AddSnapModelProfile Sample.profile0 Sample.paramsEmpty Sample.s0
  = Returns (Some (errors.New (if (PCRIndex Sample.paramsEmpty <? 0)%Z
                               then "invalid PCR index"
                               else "no models provided")))
            Sample.s0.
Proof.
  split; [reflexivity|].
  exact (empty_models_error Sample.profile0 Sample.paramsEmpty Sample.s0 eq_refl).
Defined.

(** C3, the claim as stated: with an empty list and a negative index the
    error is "invalid PCR index", not "no models provided". *)
Lemma sample_no_models_negative_index :
  Models Sample.paramsEmptyNegative = [] /\
  AddSnapModelProfile Sample.profile0 Sample.paramsEmptyNegative Sample.s0
  = Returns (Some (errors.New "invalid PCR index")) Sample.s0 /\
  ~ (exists s', AddSnapModelProfile Sample.profile0 Sample.paramsEmptyNegative Sample.s0
                = Returns (Some (errors.New "no models provided")) s').
Proof.
  split; [reflexivity|]. split; [exact sample_run_no_models_negative_index|].
  intros [s' Hrun]. rewrite sample_run_no_models_negative_index in Hrun. discriminate.
Qed.

Lemma sample_error_run_frame :
  AddSnapModelProfile Sample.profile0 Sample.paramsModelThenBad Sample.s0
  = Returns (Some (xerrors.Errorf "cannot decode signing key ID: " (CorruptInputError 36)))
            Sample.afterModelThenBad /\
  exists new,
    calls Sample.afterModelThenBad = calls Sample.s0 ++ new /\
    (forall err,
       Some (xerrors.Errorf "cannot decode signing key ID: " (CorruptInputError 36)) = Some err ->
       (forall t, store Sample.s0 !! Sample.profile0 = Some t ->
                  store Sample.afterModelThenBad !! Sample.profile0 = Some t) /\
       (forall q t, store Sample.s0 !! q = Some t ->
                    store Sample.afterModelThenBad !! q = Some t) /\
       Forall (fun c => isAddProfileOR c = false /\ store Sample.s0 !! receiver c = None) new) /\
    (forall before c after,
       new = before ++ c :: after ->
       isAddProfileOR c = true ->
       Some (xerrors.Errorf "cannot decode signing key ID: " (CorruptInputError 36)) = None /\
       after = [] /\
       exists digests,
         Forall2 (accepted (PCRAlgorithm Sample.paramsModelThenBad))
                 (Models Sample.paramsModelThenBad) digests /\
         before = buildCalls (PCRAlgorithm Sample.paramsModelThenBad)
                             (PCRIndex Sample.paramsModelThenBad)
                             (length (store Sample.s0)) digests).
Proof.
  split; [exact sample_run_model_then_undecodable|].
  exact (error_leaves_profile_unchanged
           Sample.profile0 Sample.paramsModelThenBad Sample.s0 _ Sample.afterModelThenBad
           sample_run_model_then_undecodable).
Defined.

Lemma sample_model_then_nil :
  (0 <= PCRIndex Sample.paramsModelThenNil)%Z /\
  Models Sample.paramsModelThenNil = [Some Sample.model1] ++ None :: [Some Sample.model2] /\
  Forall2 (accepted (PCRAlgorithm Sample.paramsModelThenNil))
          [Some Sample.model1] [Sample.digest1] /\
  ([Some Sample.model1] = [] \/
   tpm2.Supported (PCRAlgorithm Sample.paramsModelThenNil) = true) /\
  AddSnapModelProfile Sample.profile0 Sample.paramsModelThenNil Sample.s0
  = Returns (Some (errors.New "nil model"))
            (built Sample.paramsModelThenNil [Sample.digest1] Sample.s0) /\
  extendedDigests (drop (length (calls Sample.s0))
                        (calls (built Sample.paramsModelThenNil [Sample.digest1] Sample.s0)))
  = [Sample.digest1] /\
  length [Sample.digest1] = length [Some Sample.model1].
Proof.
  split; [exact sample_index_not_negative|]. split; [reflexivity|].
  split; [exact sample_model1_accepted|]. split; [exact sample_hash_available|].
  exact (nil_model_error
           Sample.profile0 Sample.paramsModelThenNil Sample.s0
           [Some Sample.model1] [Some Sample.model2] [Sample.digest1]
           sample_index_not_negative eq_refl sample_model1_accepted sample_hash_available).
Defined.

(** C9, the claim as stated: a list with a nil entry after a model whose
    sign key ID does not decode gives the decoding error, not "nil model";
    and a list with a nil entry after an accepted model, for an algorithm
    without a hash function, gives no error at all: the call fails in
    [NewHash] at the first entry. *)
Lemma sample_undecodable_then_nil :
  (In None (Models Sample.paramsBadThenNil) /\
   AddSnapModelProfile Sample.profile0 Sample.paramsBadThenNil Sample.s0
   = Returns (Some (xerrors.Errorf "cannot decode signing key ID: " (CorruptInputError 36)))
             Sample.s0 /\
   ~ (exists s', AddSnapModelProfile Sample.profile0 Sample.paramsBadThenNil Sample.s0
                 = Returns (Some (errors.New "nil model")) s')) /\
  (In None (Models Sample.paramsNoHashModelThenNil) /\
   AddSnapModelProfile Sample.profile0 Sample.paramsNoHashModelThenNil Sample.s0
   = Panics HashUnavailable /\
   ~ (exists s', AddSnapModelProfile Sample.profile0 Sample.paramsNoHashModelThenNil Sample.s0
                 = Returns (Some (errors.New "nil model")) s')).
Proof.
  split.
  - split; [simpl; auto|]. split; [exact sample_run_undecodable_then_nil|].
    intros [s' Hrun]. rewrite sample_run_undecodable_then_nil in Hrun. discriminate.
  - split; [simpl; auto|]. split; [exact sample_run_no_hash_model_then_nil|].
    intros [s' Hrun]. rewrite sample_run_no_hash_model_then_nil in Hrun. discriminate.
Qed.

Lemma sample_model_then_undecodable :
  Models Sample.paramsModelThenBad
  = [Some Sample.model1] ++ Some Sample.badModel :: [Some Sample.model2] /\
  base64.DecodeString (asserts.SignKeyID Sample.badModel)
  = (fst (base64.DecodeString (asserts.SignKeyID Sample.badModel)),
     Some (CorruptInputError 36)) /\
  (0 <= PCRIndex Sample.paramsModelThenBad)%Z /\
  Forall2 (accepted (PCRAlgorithm Sample.paramsModelThenBad))
          [Some Sample.model1] [Sample.digest1] /\
  ([Some Sample.model1] = [] \/
   tpm2.Supported (PCRAlgorithm Sample.paramsModelThenBad) = true) /\
  AddSnapModelProfile Sample.profile0 Sample.paramsModelThenBad Sample.s0
  = Returns (Some (xerrors.Errorf "cannot decode signing key ID: " (CorruptInputError 36)))
            (built Sample.paramsModelThenBad [Sample.digest1] Sample.s0) /\
  xerrors.Unwrap (xerrors.Errorf "cannot decode signing key ID: " (CorruptInputError 36))
  = Some (CorruptInputError 36) /\
  List.filter isAddProfileOR
              (drop (length (calls Sample.s0))
                    (calls (built Sample.paramsModelThenBad [Sample.digest1] Sample.s0)))
  = [] /\
  extendedDigests (drop (length (calls Sample.s0))
                        (calls (built Sample.paramsModelThenBad [Sample.digest1] Sample.s0)))
  = [Sample.digest1] /\
  length [Sample.digest1] = length [Some Sample.model1] /\
  (forall q t, store Sample.s0 !! q = Some t ->
               store (built Sample.paramsModelThenBad [Sample.digest1] Sample.s0) !! q = Some t).
Proof.
  assert (base64.DecodeString (asserts.SignKeyID Sample.badModel)
          = (fst (base64.DecodeString (asserts.SignKeyID Sample.badModel)),
             Some (CorruptInputError 36))) as Hdec by reflexivity.
  split; [reflexivity|]. split; [exact Hdec|].
  split; [exact sample_index_not_negative|].
  split; [exact sample_model1_accepted|]. split; [exact sample_hash_available|].
  exact (proj2 (proj2 (undecodable_sign_key_error
                         Sample.profile0 Sample.paramsModelThenBad Sample.s0
                         [Some Sample.model1] Sample.badModel [Some Sample.model2]
                         (fst (base64.DecodeString (asserts.SignKeyID Sample.badModel)))
                         (CorruptInputError 36) eq_refl Hdec))
           [Sample.digest1]
           sample_index_not_negative sample_model1_accepted sample_hash_available).
Defined.

(** C10, the claim as stated: a model whose sign key ID does not decode,
    after a nil entry, is never reached; the error is "nil model", which
    wraps no decoding error.  After an accepted model, for an algorithm
    without a hash function, it is not reached either, and no error is
    returned: the call fails in [NewHash] at the first entry. *)
Lemma sample_nil_then_undecodable :
  (In (Some Sample.badModel) (Models Sample.paramsNilThenBad) /\
   snd (base64.DecodeString (asserts.SignKeyID Sample.badModel))
   = Some (CorruptInputError 36) /\
   AddSnapModelProfile Sample.profile0 Sample.paramsNilThenBad Sample.s0
   = Returns (Some (errors.New "nil model")) Sample.s0 /\
   xerrors.Unwrap (errors.New "nil model") = None /\
   ~ (exists cause s',
         AddSnapModelProfile Sample.profile0 Sample.paramsNilThenBad Sample.s0
         = Returns (Some (xerrors.Errorf "cannot decode signing key ID: " cause)) s')) /\
  (In (Some Sample.badModel) (Models Sample.paramsNoHashModelThenBad) /\
   AddSnapModelProfile Sample.profile0 Sample.paramsNoHashModelThenBad Sample.s0
   = Panics HashUnavailable /\
   ~ (exists r s',
         AddSnapModelProfile Sample.profile0 Sample.paramsNoHashModelThenBad Sample.s0
         = Returns r s')).
Proof.
  split.
  - split; [simpl; auto|]. split; [reflexivity|].
    split; [exact sample_run_nil_then_undecodable|]. split; [reflexivity|].
    intros (cause & s' & Hrun). rewrite sample_run_nil_then_undecodable in Hrun.
    discriminate.
  - split; [simpl; auto|]. split; [exact sample_run_no_hash_model_then_undecodable|].
    intros (r & s' & Hrun). rewrite sample_run_no_hash_model_then_undecodable in Hrun.
    discriminate.
Qed.

(** * Further properties *)

(** ** The decoder *)

Lemma isNewline_not_in_alphabet (c : byte) :
  base64.isNewline c = true -> base64.decodeMap c = None.
Proof.
  unfold base64.isNewline. intros Hnl.
  apply orb_true_iff in Hnl as [Heq|Heq]; apply Byte.byte_dec_bl in Heq; subst; reflexivity.
Qed.

Lemma countSextets_cons_in (c : byte) (rest : list byte) (out : N) :
  base64.decodeMap c = Some out -> countSextets (c :: rest) = S (countSextets rest).
Proof. intros Hc. unfold countSextets. simpl. now rewrite Hc. Qed.

Lemma countSextets_cons_out (c : byte) (rest : list byte) :
  base64.decodeMap c = None -> countSextets (c :: rest) = countSextets rest.
Proof. intros Hc. unfold countSextets. simpl. now rewrite Hc. Qed.

Lemma quantumBytes_length (sextets : list N) :
  2 <= length sextets <= 4 ->
  length (base64.quantumBytes sextets) = length sextets - 1.
Proof.
  intros Hlen. unfold base64.quantumBytes. rewrite length_take. simpl. lia.
Qed.

Lemma decodeLoop_cons (c : byte) (rest : list byte) (si : Z) (dbuf : list N)
    (dst : list byte) :
  base64.decodeLoop (c :: rest) si dbuf dst =
  match base64.decodeMap c with
  | Some out =>
      if (length (dbuf ++ [out]) =? 4)%nat
      then base64.decodeLoop rest (si + 1) [] (dst ++ base64.quantumBytes (dbuf ++ [out]))
      else base64.decodeLoop rest (si + 1) (dbuf ++ [out]) dst
  | None =>
      if base64.isNewline c then base64.decodeLoop rest (si + 1) dbuf dst
      else (dst, Some (CorruptInputError si))
  end.
Proof. reflexivity. Qed.

(** The decoding loop accepts its input exactly when every byte is in the
    alphabet or a line break and the sextets, those pending included, do
    not end one into a quantum; it then produces three bytes for four
    sextets, rounded down. *)
Lemma decodeLoop_accepts (src : list byte) : forall (si : Z) (dbuf : list N) (dst : list byte),
  length dbuf < 4 ->
  (snd (base64.decodeLoop src si dbuf dst) = None <->
   Forall (fun c => is_Some (base64.decodeMap c) \/ base64.isNewline c = true) src /\
   (length dbuf + countSextets src) mod 4 <> 1) /\
  (snd (base64.decodeLoop src si dbuf dst) = None ->
   length (fst (base64.decodeLoop src si dbuf dst))
   = length dst + (3 * (length dbuf + countSextets src)) / 4).
Proof.
  induction src as [|c rest IH]; intros si dbuf dst Hlen.
  - unfold countSextets. simpl. rewrite Nat.add_0_r.
    destruct dbuf as [|d0 [|d1 [|d2 [|d3 dbuf]]]]; simpl in *; try lia.
    + split; [split; [intros _; split; [constructor|discriminate]|reflexivity]|].
      intros _. lia.
    + split; [split; [discriminate|intros [_ Hmod]; congruence]|discriminate].
    + split; [split; [intros _; split; [constructor|discriminate]|reflexivity]|].
      intros _. rewrite length_app, quantumBytes_length by (simpl; lia). reflexivity.
    + split; [split; [intros _; split; [constructor|discriminate]|reflexivity]|].
      intros _. rewrite length_app, quantumBytes_length by (simpl; lia). reflexivity.
  - rewrite decodeLoop_cons. destruct (base64.decodeMap c) as [out|] eqn:Hc.
    + rewrite (countSextets_cons_in _ _ _ Hc).
      rewrite length_app. change (length [out]) with 1.
      destruct (Nat.eqb_spec (length dbuf + 1) 4) as [Hfull|Hpart].
      * destruct (IH (si + 1)%Z [] (dst ++ base64.quantumBytes (dbuf ++ [out])))
          as [Hiff Hout]; [simpl; lia|].
        change (length (@nil N)) with 0 in Hiff, Hout.
        rewrite Nat.add_0_l in Hiff, Hout.
        rewrite length_app, quantumBytes_length in Hout
          by (rewrite length_app; change (length [out]) with 1; lia).
        rewrite length_app in Hout. change (length [out]) with 1 in Hout.
        assert ((length dbuf + S (countSextets rest)) mod 4 = countSextets rest mod 4)
          as Hmod.
        { replace (length dbuf + S (countSextets rest))
            with (countSextets rest + 1 * 4) by lia.
          apply Nat.Div0.mod_add. }
        assert ((3 * (length dbuf + S (countSextets rest))) / 4
                = (3 * countSextets rest) / 4 + 3) as Hdiv.
        { replace (3 * (length dbuf + S (countSextets rest)))
            with (3 * countSextets rest + 3 * 4) by lia.
          apply Nat.div_add. lia. }
        split.
        -- rewrite Hiff, Forall_cons, Hmod. intuition eauto.
        -- intros Hok. rewrite (Hout Hok), Hdiv. lia.
      * destruct (IH (si + 1)%Z (dbuf ++ [out]) dst) as [Hiff Hout];
          [rewrite length_app; change (length [out]) with 1; lia|].
        rewrite length_app in Hiff, Hout. change (length [out]) with 1 in Hiff, Hout.
        replace (length dbuf + 1 + countSextets rest)
          with (length dbuf + S (countSextets rest)) in * by lia.
        split; [|assumption].
        rewrite Hiff, Forall_cons. intuition eauto.
    + rewrite (countSextets_cons_out _ _ Hc).
      destruct (base64.isNewline c) eqn:Hnl.
      * destruct (IH (si + 1)%Z dbuf dst Hlen) as [Hiff Hout].
        split; [|assumption].
        rewrite Hiff, Forall_cons. intuition eauto.
      * split; [|discriminate].
        split; [discriminate|].
        intros [Hall _]. apply Forall_cons in Hall as [[[x Hx]|Hx] _]; congruence.
Qed.


(** Line breaks change neither the bytes decoded nor whether the input is
    accepted. *)
Lemma decodeLoop_stripNewlines (src : list byte) :
  forall (si si' : Z) (dbuf : list N) (dst : list byte),
  fst (base64.decodeLoop src si dbuf dst)
  = fst (base64.decodeLoop (stripNewlines src) si' dbuf dst) /\
  (snd (base64.decodeLoop src si dbuf dst) = None <->
   snd (base64.decodeLoop (stripNewlines src) si' dbuf dst) = None).
Proof.
  induction src as [|c rest IH]; intros si si' dbuf dst.
  - simpl. destruct dbuf as [|d0 [|d1 dbuf]]; simpl; split; try reflexivity;
      split; discriminate.
  - unfold stripNewlines. simpl List.filter.
    destruct (base64.isNewline c) eqn:Hnl; simpl negb; cbv iota.
    + simpl. rewrite (isNewline_not_in_alphabet c Hnl), Hnl. apply IH.
    + simpl. destruct (base64.decodeMap c) as [out|].
      * destruct (length (dbuf ++ [out]) =? 4)%nat; apply IH.
      * rewrite Hnl. simpl. split; [reflexivity|]. split; discriminate.
Qed.

(** X9. [RawURLEncoding.DecodeString] accepts a string exactly when each of its
    bytes is in the URL alphabet or is a line feed or carriage return, and
    the number of alphabet bytes is not one more than a multiple of four
    (so padding and the characters [+] and [/] are refused); the result
    then has three bytes for every four alphabet bytes, rounded down. *)
Theorem DecodeString_accepts (s : string) :
  (snd (base64.DecodeString s) = None <->
   Forall (fun c => is_Some (base64.decodeMap c) \/ base64.isNewline c = true)
          (list_byte_of_string s) /\
   countSextets (list_byte_of_string s) mod 4 <> 1) /\
  (snd (base64.DecodeString s) = None ->
   length (fst (base64.DecodeString s))
   = (3 * countSextets (list_byte_of_string s)) / 4).
Proof.
  unfold base64.DecodeString.
  destruct (decodeLoop_accepts (list_byte_of_string s) 0 [] []) as [Hiff Hout];
    [simpl; lia|].
  split; [exact Hiff|exact Hout].
Qed.

Section MoreProperties.
Context `{tpm2.Hashes}.

Implicit Types (params : SnapModelProfileParams) (s : state).

(** ** [AddSnapModelProfile] *)

Lemma accepted_iff_decodable alg (entry : option asserts.Model) :
  (exists digest, accepted alg entry digest) <->
  (exists model, entry = Some model /\
                 snd (base64.DecodeString (asserts.SignKeyID model)) = None).
Proof.
  split.
  - intros (digest & model & signKeyId & -> & Hdec & _).
    exists model. now rewrite Hdec.
  - intros (model & -> & Hdec).
    exists (measurement alg (fst (base64.DecodeString (asserts.SignKeyID model))) model),
           model, (fst (base64.DecodeString (asserts.SignKeyID model))).
    split; [reflexivity|]. split; [|reflexivity].
    destruct (base64.DecodeString (asserts.SignKeyID model)) as [k e]. simpl in *.
    now rewrite Hdec.
Qed.

Lemma all_accepted_iff_decodable alg (models : list (option asserts.Model)) :
  (exists digests, Forall2 (accepted alg) models digests) <->
  Forall (fun entry =>
            exists model, entry = Some model /\
                          snd (base64.DecodeString (asserts.SignKeyID model)) = None)
         models.
Proof.
  induction models as [|entry rest IH].
  - split; [constructor|]. intros _. exists []. constructor.
  - rewrite Forall_cons, <- IH, <- (accepted_iff_decodable alg). split.
    + intros (digests & Hall).
      apply Forall2_cons_inv_l in Hall as (d & ds & Hacc & Hrest & ->). eauto.
    + intros [[d Hacc] [ds Hrest]]. exists (d :: ds). now constructor.
Qed.

(** A call returns nil only for an algorithm that has a hash function: a
    hash object was made for each model, and there is at least one. *)
Lemma AddSnapModelProfile_nil_supported profile params s s' :
  AddSnapModelProfile profile params s = Returns None s' ->
  tpm2.Supported (PCRAlgorithm params) = true.
Proof.
  rewrite AddSnapModelProfile_run.
  destruct (PCRIndex params <? 0)%Z; [discriminate|].
  destruct (Models params) as [|model rest] eqn:Hmodels; [discriminate|].
  destruct (scanModels (PCRAlgorithm params) (model :: rest)) as [digests r] eqn:Hscan.
  destruct digests as [|digest digests].
  - destruct r as [err|]; [discriminate|].
    apply scanModels_all_accepted in Hscan. inversion Hscan.
  - simpl. now destruct (tpm2.Supported (PCRAlgorithm params)).
Qed.

(** X1. A call on a profile of the store returns nil exactly when
    [params.PCRIndex] is not negative, [params.Models] is not empty, every
    entry is a model whose sign key ID decodes, and [params.PCRAlgorithm]
    has a hash function; no other field of a model and no upper bound on
    the index is checked. *)
Theorem AddSnapModelProfile_returns_nil_iff profile params s :
  profile < length (store s) ->
  ((exists s', AddSnapModelProfile profile params s = Returns None s') <->
   (0 <= PCRIndex params)%Z /\
   Models params <> [] /\
   Forall (fun entry =>
             exists model, entry = Some model /\
                           snd (base64.DecodeString (asserts.SignKeyID model)) = None)
          (Models params) /\
   tpm2.Supported (PCRAlgorithm params) = true).
Proof.
  intros Hlive. rewrite <- (all_accepted_iff_decodable (PCRAlgorithm params)). split.
  - intros [s' Hrun].
    pose proof (AddSnapModelProfile_nil_supported _ _ _ _ Hrun) as Hsup.
    apply AddSnapModelProfile_nil_inv in Hrun as (digests & t & Hpos & Hne & Hall & _);
      [|assumption].
    eauto.
  - intros (Hpos & Hne & (digests & Hall) & Hsup).
    destruct (lookup_lt_is_Some_2 _ _ Hlive) as [t Ht].
    eexists. eapply AddSnapModelProfile_nil_intro; eassumption.
Qed.




(** X4. A call that returns nil changes no profile of the store other than its
    argument, and adds exactly one object per model to the store. *)
Theorem AddSnapModelProfile_success_frame profile params s s' :
  profile < length (store s) ->
  AddSnapModelProfile profile params s = Returns None s' ->
  length (store s') = length (store s) + length (Models params) /\
  forall q t, q <> profile -> store s !! q = Some t -> store s' !! q = Some t.
Proof.
  intros Hlive Hrun.
  apply AddSnapModelProfile_nil_inv in Hrun as (digests & t & _ & _ & Hall & Ht & ->);
    [|assumption].
  unfold branched. simpl. split.
  - rewrite length_app, length_insert, length_map.
    now rewrite (Forall2_length _ _ _ Hall).
  - intros q t' Hq Hlook. apply lookup_app_l_Some.
    rewrite list_lookup_insert_ne by congruence. assumption.
Qed.

(** X5. Two calls made one after the other share no sub-profile: the objects
    the second call passes to [AddProfileOR] are all different from those
    the first call passed. *)
Theorem AddSnapModelProfile_calls_share_no_subprofile
    profile1 params1 profile2 params2 s s1 s2 :
  profile1 < length (store s) ->
  profile2 < length (store s1) ->
  AddSnapModelProfile profile1 params1 s = Returns None s1 ->
  AddSnapModelProfile profile2 params2 s1 = Returns None s2 ->
  exists subProfiles1 subProfiles2,
    last (calls s1) = Some (CallAddProfileOR profile1 subProfiles1) /\
    last (calls s2) = Some (CallAddProfileOR profile2 subProfiles2) /\
    length subProfiles1 = length (Models params1) /\
    length subProfiles2 = length (Models params2) /\
    forall p, In p subProfiles1 -> ~ In p subProfiles2.
Proof.
  intros Hlive1 Hlive2 Hrun1 Hrun2.
  apply AddSnapModelProfile_nil_inv in Hrun1 as (ds1 & t1 & _ & _ & Hall1 & _ & Hs1);
    [|assumption].
  apply AddSnapModelProfile_nil_inv in Hrun2 as (ds2 & t2 & _ & _ & Hall2 & _ & Hs2);
    [|assumption].
  exists (seq (length (store s)) (length ds1)), (seq (length (store s1)) (length ds2)).
  repeat split.
  - rewrite Hs1. unfold branched. simpl. now rewrite !app_assoc, last_snoc.
  - rewrite Hs2. unfold branched. simpl. now rewrite !app_assoc, last_snoc.
  - rewrite length_seq. symmetry. eapply Forall2_length. eassumption.
  - rewrite length_seq. symmetry. eapply Forall2_length. eassumption.
  - intros p Hp1 Hp2. apply in_seq in Hp1, Hp2.
    rewrite Hs1 in Hp2. unfold branched in Hp2. simpl in Hp2.
    rewrite length_app, length_insert, length_map in Hp2. lia.
Qed.

(** X6. The function does not merge equal models: two entries of
    [params.Models] that are the same model get two different
    sub-profiles, with the same tree. *)
Theorem AddSnapModelProfile_keeps_duplicates profile params s s' :
  profile < length (store s) ->
  AddSnapModelProfile profile params s = Returns None s' ->
  exists subProfiles,
    last (calls s') = Some (CallAddProfileOR profile subProfiles) /\
    length subProfiles = length (Models params) /\
    forall i j p q,
      i <> j ->
      Models params !! i = Models params !! j ->
      subProfiles !! i = Some p ->
      subProfiles !! j = Some q ->
      p <> q /\ is_Some (store s' !! p) /\ store s' !! p = store s' !! q.
Proof.
  intros Hlive Hrun.
  apply AddSnapModelProfile_nil_inv in Hrun as (digests & t & _ & _ & Hall & Ht & ->);
    [|assumption].
  pose proof (Forall2_length _ _ _ Hall) as Hlen.
  exists (seq (length (store s)) (length digests)). split; [|split].
  - unfold branched. simpl. now rewrite !app_assoc, last_snoc.
  - now rewrite length_seq.
  - intros i j p q Hij Hsame Hp Hq.
    apply lookup_seq in Hp as [-> Hi]. apply lookup_seq in Hq as [-> Hj].
    destruct (lookup_lt_is_Some_2 digests i Hi) as [di Hdi].
    destruct (lookup_lt_is_Some_2 digests j Hj) as [dj Hdj].
    destruct (Forall2_lookup_r _ _ _ _ _ Hall Hdi) as (ei & Hei & Hacci).
    destruct (Forall2_lookup_r _ _ _ _ _ Hall Hdj) as (ej & Hej & Haccj).
    assert (ei = ej) as <- by congruence.
    assert (di = dj) as <- by (eapply accepted_functional; eassumption).
    rewrite !(branched_lookup_subProfile _ _ _ _ _ _ _ Hdi),
            !(branched_lookup_subProfile _ _ _ _ _ _ _ Hdj).
    split; [lia|]. split; [eauto|reflexivity].
Qed.

(** X7. The sign key and the brand ID are hashed as one sequence of bytes and
    the length of the decoded sign key is not checked: two models whose
    decoded sign key followed by the brand ID give the same bytes, and whose
    model and series are equal, are extended with the same digest. *)
Theorem sign_key_and_brand_hashed_together
    profile params s r s' i1 i2 (model1 model2 : asserts.Model)
    signKeyId1 signKeyId2 digest1 digest2 :
  AddSnapModelProfile profile params s = Returns r s' ->
  Models params !! i1 = Some (Some model1) ->
  Models params !! i2 = Some (Some model2) ->
  base64.DecodeString (asserts.SignKeyID model1) = (signKeyId1, None) ->
  base64.DecodeString (asserts.SignKeyID model2) = (signKeyId2, None) ->
  signKeyId1 ++ list_byte_of_string (asserts.BrandID model1)
  = signKeyId2 ++ list_byte_of_string (asserts.BrandID model2) ->
  asserts.Model_ model1 = asserts.Model_ model2 ->
  asserts.Series model1 = asserts.Series model2 ->
  extendedDigests (drop (length (calls s)) (calls s')) !! i1 = Some digest1 ->
  extendedDigests (drop (length (calls s)) (calls s')) !! i2 = Some digest2 ->
  digest1 = digest2.
Proof.
  intros Hrun Hm1 Hm2 Hk1 Hk2 Hcat Hmodel Hseries Hd1 Hd2.
  destruct (extended_digest_accepted _ _ _ _ _ _ _ Hrun Hd1) as (e1 & He1 & Hacc1).
  destruct (extended_digest_accepted _ _ _ _ _ _ _ Hrun Hd2) as (e2 & He2 & Hacc2).
  rewrite Hm1 in He1. rewrite Hm2 in He2. injection He1 as <-. injection He2 as <-.
  destruct Hacc1 as (m1 & k1 & [= <-] & Hdec1 & ->).
  destruct Hacc2 as (m2 & k2 & [= <-] & Hdec2 & ->).
  rewrite Hk1 in Hdec1. rewrite Hk2 in Hdec2.
  injection Hdec1 as <-. injection Hdec2 as <-.
  unfold measurement. cbv zeta. now rewrite Hcat, Hmodel, Hseries.
Qed.

(** X8. Line feeds and carriage returns in a sign key ID do not count: two
    models whose sign key IDs differ in them only, and whose other fields are
    equal, are extended with the same digest. *)
Theorem sign_key_line_breaks_ignored
    profile params s r s' i1 i2 (model1 model2 : asserts.Model) digest1 digest2 :
  AddSnapModelProfile profile params s = Returns r s' ->
  Models params !! i1 = Some (Some model1) ->
  Models params !! i2 = Some (Some model2) ->
  stripNewlines (list_byte_of_string (asserts.SignKeyID model1))
  = stripNewlines (list_byte_of_string (asserts.SignKeyID model2)) ->
  asserts.BrandID model1 = asserts.BrandID model2 ->
  asserts.Model_ model1 = asserts.Model_ model2 ->
  asserts.Series model1 = asserts.Series model2 ->
  extendedDigests (drop (length (calls s)) (calls s')) !! i1 = Some digest1 ->
  extendedDigests (drop (length (calls s)) (calls s')) !! i2 = Some digest2 ->
  digest1 = digest2.
Proof.
  intros Hrun Hm1 Hm2 Hstrip Hbrand Hmodel Hseries Hd1 Hd2.
  destruct (extended_digest_accepted _ _ _ _ _ _ _ Hrun Hd1) as (e1 & He1 & Hacc1).
  destruct (extended_digest_accepted _ _ _ _ _ _ _ Hrun Hd2) as (e2 & He2 & Hacc2).
  rewrite Hm1 in He1. rewrite Hm2 in He2. injection He1 as <-. injection He2 as <-.
  destruct Hacc1 as (m1 & k1 & [= <-] & Hdec1 & ->).
  destruct Hacc2 as (m2 & k2 & [= <-] & Hdec2 & ->).
  assert (k1 = k2) as <-.
  { pose proof (decodeLoop_stripNewlines
                  (list_byte_of_string (asserts.SignKeyID model1)) 0 0 [] []) as [Hf1 _].
    pose proof (decodeLoop_stripNewlines
                  (list_byte_of_string (asserts.SignKeyID model2)) 0 0 [] []) as [Hf2 _].
    unfold base64.DecodeString in Hdec1, Hdec2.
    rewrite Hdec1 in Hf1. rewrite Hdec2 in Hf2. rewrite Hstrip in Hf1.
    simpl in Hf1, Hf2. congruence. }
  unfold measurement. cbv zeta. now rewrite Hbrand, Hmodel, Hseries.
Qed.

End MoreProperties.

(** ** [export_test.go] *)

Section ExportProperties.
Context `{tpm2.Hashes}.
Context {PublicRef TctiFn PrivateKeyRef AuthenticodeRef UefiGuidRef : Type}.

Implicit Types (g : globals PublicRef TctiFn).

Lemma setEfivarsPath_same g : setEfivarsPath (efivarsPath g) g = g.
Proof. now destruct g. Qed.

Lemma setEventLogPath_same g : setEventLogPath (eventLogPath g) g = g.
Proof. now destruct g. Qed.

Lemma setEkTemplate_same g : setEkTemplate (ekTemplate g) g = g.
Proof. now destruct g. Qed.

(** X10. Each [Mock] helper puts the given value in its variable and returns a
    function that puts the variables back exactly as they were; two mocks of
    the same variable are undone by running their functions in reverse
    order. *)
Theorem Mock_restore_in_reverse_order g (path1 path2 : string) (mock1 mock2 : PublicRef) :
  (let '(restore1, g1) := MockEfivarsPath path1 g in
   let '(restore2, g2) := MockEfivarsPath path2 g1 in
   efivarsPath g1 = path1 /\ efivarsPath g2 = path2 /\
   restore1 g1 = g /\ restore2 g2 = g1 /\ restore1 (restore2 g2) = g) /\
  (let '(restore1, g1) := MockEventLogPath path1 g in
   let '(restore2, g2) := MockEventLogPath path2 g1 in
   eventLogPath g1 = path1 /\ eventLogPath g2 = path2 /\
   restore1 g1 = g /\ restore2 g2 = g1 /\ restore1 (restore2 g2) = g) /\
  (let '(restore1, g1) := MockEKTemplate mock1 g in
   let '(restore2, g2) := MockEKTemplate mock2 g1 in
   ekTemplate g1 = mock1 /\ ekTemplate g2 = mock2 /\
   restore1 g1 = g /\ restore2 g2 = g1 /\ restore1 (restore2 g2) = g).
Proof.
  destruct g. repeat split.
Qed.

(** X11. Run in the order of the mocks instead, the two functions leave the
    first mocked value in place: the variables are back as they were only if
    that value was the original one. *)
Theorem Mock_restore_in_mock_order g (path1 path2 : string) (mock1 mock2 : PublicRef) :
  (let '(restore1, g1) := MockEfivarsPath path1 g in
   let '(restore2, g2) := MockEfivarsPath path2 g1 in
   restore2 (restore1 g2) = g1 /\
   (restore2 (restore1 g2) = g <-> path1 = efivarsPath g)) /\
  (let '(restore1, g1) := MockEventLogPath path1 g in
   let '(restore2, g2) := MockEventLogPath path2 g1 in
   restore2 (restore1 g2) = g1 /\
   (restore2 (restore1 g2) = g <-> path1 = eventLogPath g)) /\
  (let '(restore1, g1) := MockEKTemplate mock1 g in
   let '(restore2, g2) := MockEKTemplate mock2 g1 in
   restore2 (restore1 g2) = g1 /\
   (restore2 (restore1 g2) = g <-> mock1 = ekTemplate g)).
Proof.
  destruct g. simpl. repeat split; try congruence; intros [= ->]; reflexivity.
Qed.

(** X12. Mocks of different variables do not disturb each other.  Each of
    the three functions returned undoes its own variable only: whatever the
    variables hold when it runs, it puts the value from before its mock
    back in its variable and leaves the other four variables as they are.
    So the three can run in any of the six orders, and what
    [AppendRootCAHash] and [SetOpenDefaultTctiFn] did in between is kept:
    these two have no way back. *)
Theorem Mock_restores_are_independent g (path1 path2 : string) (mock : PublicRef)
    (h : list byte) (fn : TctiFn) :
  let '(restore1, g1) := MockEfivarsPath path1 g in
  let '(restore2, g2) := MockEventLogPath path2 g1 in
  let '(restore3, g3) := MockEKTemplate mock g2 in
  let g4 := SetOpenDefaultTctiFn fn (AppendRootCAHash h g3) in
  let g5 := SetOpenDefaultTctiFn fn (AppendRootCAHash h g) in
  (efivarsPath g4 = path1 /\ eventLogPath g4 = path2 /\ ekTemplate g4 = mock) /\
  (forall g',
      efivarsPath (restore1 g') = efivarsPath g /\
      eventLogPath (restore1 g') = eventLogPath g' /\
      ekTemplate (restore1 g') = ekTemplate g' /\
      rootCAHashes (restore1 g') = rootCAHashes g' /\
      openDefaultTcti (restore1 g') = openDefaultTcti g') /\
  (forall g',
      efivarsPath (restore2 g') = efivarsPath g' /\
      eventLogPath (restore2 g') = eventLogPath g /\
      ekTemplate (restore2 g') = ekTemplate g' /\
      rootCAHashes (restore2 g') = rootCAHashes g' /\
      openDefaultTcti (restore2 g') = openDefaultTcti g') /\
  (forall g',
      efivarsPath (restore3 g') = efivarsPath g' /\
      eventLogPath (restore3 g') = eventLogPath g' /\
      ekTemplate (restore3 g') = ekTemplate g /\
      rootCAHashes (restore3 g') = rootCAHashes g' /\
      openDefaultTcti (restore3 g') = openDefaultTcti g') /\
  (restore1 (restore2 (restore3 g4)) = g5 /\
   restore1 (restore3 (restore2 g4)) = g5 /\
   restore2 (restore1 (restore3 g4)) = g5 /\
   restore2 (restore3 (restore1 g4)) = g5 /\
   restore3 (restore1 (restore2 g4)) = g5 /\
   restore3 (restore2 (restore1 g4)) = g5).
Proof.
  destruct g. repeat split.
Qed.

(** X13. A sequence of [AppendRootCAHash] calls adds the given hashes to the end
    of [rootCAHashes], in the order of the calls and without dropping
    repeated ones, and touches no other variable. *)
Theorem AppendRootCAHash_sequence g (hashes : list (list byte)) :
  let g' := fold_left (fun g h => AppendRootCAHash h g) hashes g in
  rootCAHashes g' = rootCAHashes g ++ hashes /\
  efivarsPath g' = efivarsPath g /\
  eventLogPath g' = eventLogPath g /\
  ekTemplate g' = ekTemplate g /\
  openDefaultTcti g' = openDefaultTcti g.
Proof.
  revert g. induction hashes as [|h rest IH]; intros g; simpl.
  - now rewrite app_nil_r.
  - destruct (IH (AppendRootCAHash h g)) as (Hhashes & Hefi & Hlog & Hek & Htcti).
    rewrite Hhashes, Hefi, Hlog, Hek, Htcti. simpl.
    now rewrite <- app_assoc.
Qed.

Lemma rangeMockPcrParams_map (mockPcrParams : list MockPolicyPCRParam)
    (pcrParams : list policyPCRParam) :
  rangeMockPcrParams mockPcrParams pcrParams
  = pcrParams ++
    List.map (fun p => {| pcr := PCR p; alg := Alg p; digests := Digests p |}) mockPcrParams.
Proof.
  revert pcrParams. induction mockPcrParams as [|p rest IH]; intros pcrParams; simpl.
  - now rewrite app_nil_r.
  - now rewrite IH, <- app_assoc.
Qed.

(** X14. [NewDynamicPolicyComputeParams] turns the mock PCR parameters into PCR
    parameters one for one and in order, none dropped or merged, each with
    the PCR, algorithm and digests of its source, and passes its other
    arguments on unchanged. *)
Theorem NewDynamicPolicyComputeParams_pcrParams (k : PrivateKeyRef)
    (a : tpm2.HashAlgorithmId) (mockPcrParams : list MockPolicyPCRParam)
    (name : list byte) (count : Z) :
  let params := NewDynamicPolicyComputeParams k a mockPcrParams name count in
  length (pcrParams params) = length mockPcrParams /\
  (forall i,
     pcrParams params !! i
     = (fun p => {| pcr := PCR p; alg := Alg p; digests := Digests p |})
         <$> mockPcrParams !! i) /\
  key params = k /\ signAlg params = a /\
  policyCountIndexName params = name /\ policyCount params = count.
Proof.
  unfold NewDynamicPolicyComputeParams. simpl.
  rewrite rangeMockPcrParams_map. simpl. repeat split.
  - apply length_map.
  - intros i. apply list_lookup_fmap.
Qed.

(** X15. Of the two conversions of a certificate at most one gives a pointer,
    and it gives the pointer the certificate holds; both give nil exactly
    when the certificate holds a nil pointer. *)
Theorem WinCertificate_conversions (cert : WinCertificate AuthenticodeRef UefiGuidRef) :
  (ToWinCertificateAuthenticode cert = None \/ ToWinCertificateUefiGuid cert = None) /\
  (ToWinCertificateAuthenticode cert = None /\ ToWinCertificateUefiGuid cert = None
   <-> holdsNil cert = true) /\
  (forall c, ToWinCertificateAuthenticode cert = Some c -> cert = ofAuthenticode (Some c)) /\
  (forall c, ToWinCertificateUefiGuid cert = Some c -> cert = ofUefiGuid (Some c)).
Proof.
  destruct cert as [[c|]|[c|]]; simpl; repeat split; auto; try discriminate;
    try (intros [? ?]; discriminate); try (intros ? [= <-]; reflexivity).
Qed.

End ExportProperties.

(** ** The further properties on sample data *)

Lemma extra_run_boundary :
  AddSnapModelProfile Sample.profile0 SampleExtra.paramsBoundary Sample.s0
  = Returns None SampleExtra.afterBoundary.
Proof. reflexivity. Defined.

Lemma extra_run_broken :
  AddSnapModelProfile Sample.profile0 SampleExtra.paramsBroken Sample.s0
  = Returns None SampleExtra.afterBroken.
Proof. reflexivity. Defined.

Lemma extra_run_second_call :
  AddSnapModelProfile Sample.profile0 Sample.paramsThreeModels Sample.afterTwoModels
  = Returns None SampleExtra.afterTwoCalls.
Proof. reflexivity. Defined.

Lemma extra_live_second_call : Sample.profile0 < length (store Sample.afterTwoModels).
Proof. vm_compute. repeat constructor. Defined.

Lemma extra_sample_returns_nil :
  Sample.profile0 < length (store Sample.s0) /\
  ((exists s', AddSnapModelProfile Sample.profile0 Sample.paramsTwoModels Sample.s0
               = Returns None s') <->
   (0 <= PCRIndex Sample.paramsTwoModels)%Z /\
   Models Sample.paramsTwoModels <> [] /\
   Forall (fun entry =>
             exists model, entry = Some model /\
                           snd (base64.DecodeString (asserts.SignKeyID model)) = None)
          (Models Sample.paramsTwoModels) /\
   tpm2.Supported (PCRAlgorithm Sample.paramsTwoModels) = true).
Proof.
  split; [exact sample_live0|].
  exact (AddSnapModelProfile_returns_nil_iff
           Sample.profile0 Sample.paramsTwoModels Sample.s0 sample_live0).
Defined.



Lemma extra_sample_success_frame :
  Sample.profile1 < length (store Sample.s1) /\
  AddSnapModelProfile Sample.profile1 Sample.paramsThreeModels Sample.s1
  = Returns None Sample.afterThreeModels /\
  length (store Sample.afterThreeModels)
  = length (store Sample.s1) + length (Models Sample.paramsThreeModels) /\
  forall q t, q <> Sample.profile1 -> store Sample.s1 !! q = Some t ->
              store Sample.afterThreeModels !! q = Some t.
Proof.
  split; [exact sample_live1|]. split; [exact sample_run_three_models|].
  exact (AddSnapModelProfile_success_frame
           Sample.profile1 Sample.paramsThreeModels Sample.s1 Sample.afterThreeModels
           sample_live1 sample_run_three_models).
Defined.

Lemma extra_sample_two_calls :
  Sample.profile0 < length (store Sample.s0) /\
  Sample.profile0 < length (store Sample.afterTwoModels) /\
  AddSnapModelProfile Sample.profile0 Sample.paramsTwoModels Sample.s0
  = Returns None Sample.afterTwoModels /\
  AddSnapModelProfile Sample.profile0 Sample.paramsThreeModels Sample.afterTwoModels
  = Returns None SampleExtra.afterTwoCalls /\
  exists subProfiles1 subProfiles2,
    last (calls Sample.afterTwoModels)
    = Some (CallAddProfileOR Sample.profile0 subProfiles1) /\
    last (calls SampleExtra.afterTwoCalls)
    = Some (CallAddProfileOR Sample.profile0 subProfiles2) /\
    length subProfiles1 = length (Models Sample.paramsTwoModels) /\
    length subProfiles2 = length (Models Sample.paramsThreeModels) /\
    forall p, In p subProfiles1 -> ~ In p subProfiles2.
Proof.
  split; [exact sample_live0|]. split; [exact extra_live_second_call|].
  split; [exact sample_run_two_models|]. split; [exact extra_run_second_call|].
  exact (AddSnapModelProfile_calls_share_no_subprofile
           Sample.profile0 Sample.paramsTwoModels Sample.profile0 Sample.paramsThreeModels
           Sample.s0 Sample.afterTwoModels SampleExtra.afterTwoCalls
           sample_live0 extra_live_second_call sample_run_two_models extra_run_second_call).
Defined.

Lemma extra_sample_duplicates :
  Sample.profile1 < length (store Sample.s1) /\
  AddSnapModelProfile Sample.profile1 Sample.paramsThreeModels Sample.s1
  = Returns None Sample.afterThreeModels /\
  Models Sample.paramsThreeModels !! 0 = Models Sample.paramsThreeModels !! 2 /\
  exists subProfiles,
    last (calls Sample.afterThreeModels)
    = Some (CallAddProfileOR Sample.profile1 subProfiles) /\
    length subProfiles = length (Models Sample.paramsThreeModels) /\
    forall i j p q,
      i <> j ->
      Models Sample.paramsThreeModels !! i = Models Sample.paramsThreeModels !! j ->
      subProfiles !! i = Some p ->
      subProfiles !! j = Some q ->
      p <> q /\ is_Some (store Sample.afterThreeModels !! p) /\
      store Sample.afterThreeModels !! p = store Sample.afterThreeModels !! q.
Proof.
  split; [exact sample_live1|]. split; [exact sample_run_three_models|].
  split; [reflexivity|].
  exact (AddSnapModelProfile_keeps_duplicates
           Sample.profile1 Sample.paramsThreeModels Sample.s1 Sample.afterThreeModels
           sample_live1 sample_run_three_models).
Defined.

Lemma extra_sample_boundary :
  SampleExtra.modelABC_D <> SampleExtra.modelAB_CD /\
  AddSnapModelProfile Sample.profile0 SampleExtra.paramsBoundary Sample.s0
  = Returns None SampleExtra.afterBoundary /\
  Models SampleExtra.paramsBoundary !! 0 = Some (Some SampleExtra.modelABC_D) /\
  Models SampleExtra.paramsBoundary !! 1 = Some (Some SampleExtra.modelAB_CD) /\
  base64.DecodeString (asserts.SignKeyID SampleExtra.modelABC_D)
  = (list_byte_of_string "ABC", None) /\
  base64.DecodeString (asserts.SignKeyID SampleExtra.modelAB_CD)
  = (list_byte_of_string "AB", None) /\
  extendedDigests (drop (length (calls Sample.s0)) (calls SampleExtra.afterBoundary)) !! 0
  = Some (measurement Sample.SHA256 (list_byte_of_string "ABC") SampleExtra.modelABC_D) /\
  extendedDigests (drop (length (calls Sample.s0)) (calls SampleExtra.afterBoundary)) !! 1
  = Some (measurement Sample.SHA256 (list_byte_of_string "AB") SampleExtra.modelAB_CD) /\
  measurement Sample.SHA256 (list_byte_of_string "ABC") SampleExtra.modelABC_D
  = measurement Sample.SHA256 (list_byte_of_string "AB") SampleExtra.modelAB_CD.
Proof.
  assert (extendedDigests (drop (length (calls Sample.s0)) (calls SampleExtra.afterBoundary)) !! 0
          = Some (measurement Sample.SHA256 (list_byte_of_string "ABC")
                              SampleExtra.modelABC_D)) as Hd1 by reflexivity.
  assert (extendedDigests (drop (length (calls Sample.s0)) (calls SampleExtra.afterBoundary)) !! 1
          = Some (measurement Sample.SHA256 (list_byte_of_string "AB")
                              SampleExtra.modelAB_CD)) as Hd2 by reflexivity.
  split; [discriminate|]. split; [exact extra_run_boundary|].
  split; [reflexivity|]. split; [reflexivity|]. split; [reflexivity|].
  split; [reflexivity|]. split; [exact Hd1|]. split; [exact Hd2|].
  exact (sign_key_and_brand_hashed_together
           Sample.profile0 SampleExtra.paramsBoundary Sample.s0 None SampleExtra.afterBoundary
           0 1 SampleExtra.modelABC_D SampleExtra.modelAB_CD
           (list_byte_of_string "ABC") (list_byte_of_string "AB") _ _
           extra_run_boundary eq_refl eq_refl eq_refl eq_refl eq_refl eq_refl eq_refl
           Hd1 Hd2).
Defined.

Lemma extra_sample_line_breaks :
  asserts.SignKeyID Sample.model1 <> asserts.SignKeyID SampleExtra.model1Broken /\
  AddSnapModelProfile Sample.profile0 SampleExtra.paramsBroken Sample.s0
  = Returns None SampleExtra.afterBroken /\
  Models SampleExtra.paramsBroken !! 0 = Some (Some Sample.model1) /\
  Models SampleExtra.paramsBroken !! 1 = Some (Some SampleExtra.model1Broken) /\
  stripNewlines (list_byte_of_string (asserts.SignKeyID Sample.model1))
  = stripNewlines (list_byte_of_string (asserts.SignKeyID SampleExtra.model1Broken)) /\
  extendedDigests (drop (length (calls Sample.s0)) (calls SampleExtra.afterBroken)) !! 0
  = Some Sample.digest1 /\
  extendedDigests (drop (length (calls Sample.s0)) (calls SampleExtra.afterBroken)) !! 1
  = Some (measurement Sample.SHA256 Sample.signKeyId1 SampleExtra.model1Broken) /\
  Sample.digest1 = measurement Sample.SHA256 Sample.signKeyId1 SampleExtra.model1Broken.
Proof.
  assert (extendedDigests (drop (length (calls Sample.s0)) (calls SampleExtra.afterBroken)) !! 0
          = Some Sample.digest1) as Hd1 by reflexivity.
  assert (extendedDigests (drop (length (calls Sample.s0)) (calls SampleExtra.afterBroken)) !! 1
          = Some (measurement Sample.SHA256 Sample.signKeyId1 SampleExtra.model1Broken))
    as Hd2 by reflexivity.
  assert (stripNewlines (list_byte_of_string (asserts.SignKeyID Sample.model1))
          = stripNewlines (list_byte_of_string (asserts.SignKeyID SampleExtra.model1Broken)))
    as Hstrip by (vm_compute; reflexivity).
  split; [discriminate|]. split; [exact extra_run_broken|].
  split; [reflexivity|]. split; [reflexivity|]. split; [exact Hstrip|].
  split; [exact Hd1|]. split; [exact Hd2|].
  exact (sign_key_line_breaks_ignored
           Sample.profile0 SampleExtra.paramsBroken Sample.s0 None SampleExtra.afterBroken
           0 1 Sample.model1 SampleExtra.model1Broken _ _
           extra_run_broken eq_refl eq_refl Hstrip eq_refl eq_refl eq_refl Hd1 Hd2).
Defined.
